(** * Request dispatchers of the Laravel PHP_CodeSniffer extension

    A shallow embedding of the two dispatchers of the extension,
    [DiagnosticUpdater.update] and [CodeActionEditResolver.resolve], and the
    properties of their control flow: which collaborators they call, in which
    order, with which arguments, and what they leave behind in the
    diagnostic collection, the code action collection and the code action
    they were handed.

    Both dispatchers are promise chains.  A chain is embedded as a
    computation in a state-and-rejection monad: [.then] is the bind of the
    monad and [.catch] is its handler.  The collaborators that are not part
    of the dispatchers (the cancellation registry of [WorkerService], the
    configuration service, the worker pool, the workers, the workspace
    locator) are taken from an environment that says how each call settles;
    every call to them is recorded in a trace. *)

From Stdlib Require Import Ascii.
From stdpp Require Import base strings gmap list pretty.

Set Default Proof Using "Type".

(** ** Editor data *)

Record Uri := { fsPath : string }.

Record TextDocument := {
  uri : Uri;
  fileName : string;
  getText : string;
}.

Record Position := { line : N; character : N }.

Record Range := { start : Position; end_ : Position }.

(** [vscode.Diagnostic]; [code] is the sniff code, which both dispatchers
    use as a string. *)
Record Diagnostic := {
  code : string;
  range : Range;
  message : string;
}.

Record TextEdit := { editRange : Range; newText : string }.

(** [vscode.WorkspaceEdit]: its text edits, each with the resource it is
    for, in the order they were added. *)
Definition WorkspaceEdit := list (Uri * TextEdit).

(** [new WorkspaceEdit()] *)
Definition WorkspaceEdit_new : WorkspaceEdit := [].

(** [edit.set(uri, edits)] with an array of edits adds each of them for the
    resource; an empty array adds nothing. *)
Definition WorkspaceEdit_set (u : Uri) (edits : list TextEdit)
    (w : WorkspaceEdit) : WorkspaceEdit :=
  w ++ ((λ textEdit, (u, textEdit)) <$> edits).

Inductive CodeActionKind := QuickFix | OtherKind (name : string).

Inductive CommandArgument :=
  | ArgDocument (document : TextDocument)
  | ArgString (s : string)
  | ArgNumber (n : N).

Record Command := {
  commandTitle : string;
  command : string;
  arguments : list CommandArgument;
}.

(** The extension's [CodeAction]: a [vscode.CodeAction] that also remembers
    its document.  Every field but the title is optional. *)
Record CodeAction := {
  title : string;
  kind : option CodeActionKind;
  diagnostics : option (list Diagnostic);
  actionCommand : option Command;
  edit : option WorkspaceEdit;
  document : option TextDocument;
}.

(** The [document] field, for where [document] names something else. *)
Definition codeActionDocument (c : CodeAction) : option TextDocument :=
  document c.

(** [new CodeAction(title, kind)] *)
Definition CodeAction_new (t : string) (k : CodeActionKind) : CodeAction :=
  {| title := t; kind := Some k; diagnostics := None; actionCommand := None;
     edit := None; document := None |}.

Definition set_edit (w : WorkspaceEdit) (c : CodeAction) : CodeAction :=
  {| title := title c; kind := kind c; diagnostics := diagnostics c;
     actionCommand := actionCommand c; edit := Some w;
     document := document c |}.

Definition set_diagnostics (ds : list Diagnostic) (c : CodeAction)
    : CodeAction :=
  {| title := title c; kind := kind c; diagnostics := Some ds;
     actionCommand := actionCommand c; edit := edit c;
     document := document c |}.

Definition set_command (cmd : Command) (c : CodeAction) : CodeAction :=
  {| title := title c; kind := kind c; diagnostics := diagnostics c;
     actionCommand := Some cmd; edit := edit c; document := document c |}.

(** ** Configuration, requests and responses *)

(** The enumeration [LintAction] is declared in the configuration service.
    The dispatcher distinguishes its members [Change] and [Save]; any other
    member falls through its [switch]. *)
Module LintAction.
Inductive t := Change | Save | Other (name : string).

#[global] Instance eq_dec : EqDecision t.
Proof. solve_decision. Defined.
End LintAction.

(** A regular expression is used through [test] only. *)
Record RegExp := { test : string → bool }.

Record Configuration := {
  exclude : list RegExp;
  lintAction : LintAction.t;
  executable : string;
  standard : string;
}.

Module ReportType.
Inductive t := Diagnostic | CodeAction.
End ReportType.

Record CodeActionRequestData := {
  dataCode : string;
  dataLine : N;
  dataCharacter : N;
}.

(** [data] is [null] in a diagnostic request. *)
Definition RequestData (t : ReportType.t) : Type :=
  match t with
  | ReportType.Diagnostic => unit
  | ReportType.CodeAction => CodeActionRequestData
  end.

Record RequestOptions := { optExecutable : string; optStandard : string }.

Record Request (t : ReportType.t) := {
  workingDirectory : string;
  documentPath : string;
  documentContent : string;
  options : RequestOptions;
  data : RequestData t;
}.
Arguments workingDirectory {t}.
Arguments documentPath {t}.
Arguments documentContent {t}.
Arguments options {t}.
Arguments data {t}.

Record DiagnosticReport := {
  reportDiagnostics : list Diagnostic;
  reportCodeActions : list CodeAction;
}.

Record CodeActionReport := { edits : list TextEdit }.

Definition Report (t : ReportType.t) : Type :=
  match t with
  | ReportType.Diagnostic => DiagnosticReport
  | ReportType.CodeAction => CodeActionReport
  end.

(** The report of a response is optional: absent means no findings. *)
Record Response (t : ReportType.t) := { report : option (Report t) }.
Arguments report {t}.

(** ** Errors *)

(** The classes the [catch] handlers test with [instanceof]; they are
    unrelated classes, so an error is in exactly one of them. *)
Inductive ErrorClass :=
  | CancellationError
  | ConfigurationError
  | PHPCSError
  | UpdatePreventedError
  | OtherError (name : string).

#[global] Instance ErrorClass_eq_dec : EqDecision ErrorClass.
Proof. solve_decision. Defined.

Record JsError := { errorClass : ErrorClass; errorMessage : string }.

(** [e instanceof cls] *)
Definition instanceof (e : JsError) (cls : ErrorClass) : bool :=
  bool_decide (errorClass e = cls).

(** ** Collaborators *)

Definition CancellationToken := nat.
Definition Worker := nat.

(** How a promise returned by a collaborator settles. *)
Inductive Reply (A : Type) :=
  | Resolves (a : A)
  | Rejects (e : JsError).
Arguments Resolves {A}.
Arguments Rejects {A}.

Record Env := {
  (** [WorkerService.createCancellationToken]; [None] is [null]. *)
  registryBegin :
    TextDocument → option CancellationToken → option CancellationToken;
  (** [Configuration.get] *)
  configurationGet :
    TextDocument → option CancellationToken → Reply Configuration;
  (** [WorkerPool.waitForAvailable] *)
  poolWaitForAvailable : string → CancellationToken → Reply Worker;
  (** [Worker.execute] *)
  workerExecute :
    ∀ t, Worker → Request t → CancellationToken → Reply (Response t);
  (** [WorkspaceLocator.getWorkspaceFolderOrDefault] *)
  workspaceFolderOrDefault : Uri → Uri;
  (** [IgnoreLineCommand.COMMAND] *)
  IgnoreLineCommand_COMMAND : string;
}.

(** Calls to the collaborators, in the order they are made. *)
Inductive Event :=
  | EvCreateCancellationToken (u : Uri) (parent : option CancellationToken)
  | EvDeleteCancellationToken (u : Uri)
  | EvLinterStart (u : Uri)
  | EvLinterStop (u : Uri)
  | EvOnCancellationRequested (token : CancellationToken) (u : Uri)
  | EvConfigurationGet (u : Uri) (token : option CancellationToken)
  | EvWaitForAvailable (key : string) (token : CancellationToken)
  | EvGetWorkspaceFolder (u : Uri)
  | EvExecute (w : Worker) (t : ReportType.t) (request : Request t)
      (token : CancellationToken)
  | EvLoggerError (e : JsError).

(** ** State *)

(** A reference to a code action object. *)
Definition Ref := nat.

Record State := {
  (** the [DiagnosticCollection], by the path of the resource *)
  diagnosticCollection : gmap string (list Diagnostic);
  (** the [CodeActionCollection], by the path of the resource: the code
      action objects it holds, by reference *)
  codeActionCollection : gmap string (list Ref);
  (** the code action objects *)
  heap : gmap Ref CodeAction;
  trace : list Event;
}.

Definition set_diagnosticCollection (f : gmap string (list Diagnostic) →
    gmap string (list Diagnostic)) (s : State) : State :=
  {| diagnosticCollection := f (diagnosticCollection s);
     codeActionCollection := codeActionCollection s;
     heap := heap s; trace := trace s |}.

Definition set_codeActionCollection (f : gmap string (list Ref) →
    gmap string (list Ref)) (s : State) : State :=
  {| diagnosticCollection := diagnosticCollection s;
     codeActionCollection := f (codeActionCollection s);
     heap := heap s; trace := trace s |}.

Definition set_heap (f : gmap Ref CodeAction → gmap Ref CodeAction)
    (s : State) : State :=
  {| diagnosticCollection := diagnosticCollection s;
     codeActionCollection := codeActionCollection s;
     heap := f (heap s); trace := trace s |}.

Definition record (ev : Event) (s : State) : State :=
  {| diagnosticCollection := diagnosticCollection s;
     codeActionCollection := codeActionCollection s;
     heap := heap s; trace := trace s ++ [ev] |}.

(** ** Promise chains *)

Inductive Settled (A : Type) :=
  | Fulfilled (a : A)
  | Rejected (e : JsError).
Arguments Fulfilled {A}.
Arguments Rejected {A}.

Definition Async (A : Type) : Type := State → Settled A * State.

#[global] Instance Async_ret : MRet Async := λ A a s, (Fulfilled a, s).

(** [p.then(f)] *)
#[global] Instance Async_bind : MBind Async := λ A B f p s,
  match p s with
  | (Fulfilled a, s') => f a s'
  | (Rejected e, s') => (Rejected e, s')
  end.

(** [throw e] *)
Definition throw {A} (e : JsError) : Async A := λ s, (Rejected e, s).

(** [p.catch(h)] *)
Definition catch {A} (p : Async A) (h : JsError → Async A) : Async A := λ s,
  match p s with
  | (Fulfilled a, s') => (Fulfilled a, s')
  | (Rejected e, s') => h e s'
  end.

Definition emit (ev : Event) : Async unit := λ s, (Fulfilled tt, record ev s).

Definition modify (f : State → State) : Async unit := λ s, (Fulfilled tt, f s).

(** References for [n] new objects: distinct, and none of them in use. *)
Definition freshRefs (n : nat) (h : gmap Ref CodeAction) : list Ref :=
  fresh_list n (dom h).

(** The heap with the objects at the references. *)
Definition storeAll (refs : list Ref) (objects : list CodeAction)
    (h : gmap Ref CodeAction) : gmap Ref CodeAction :=
  list_to_map (zip refs objects) ∪ h.

Arguments freshRefs : simpl never.
Arguments storeAll : simpl never.

(** Objects that were just created, and that nothing else refers to, enter
    the heap: the code actions of a report, which the worker created for
    it, and the quick fixes [buildDiagnosticCodeActions] creates with
    [new CodeAction].  The result is the array of these objects. *)
Definition allocateAll (objects : list CodeAction) : Async (list Ref) := λ s,
  let refs := freshRefs (length objects) (heap s) in
  (Fulfilled refs, set_heap (storeAll refs objects) s).

(** Awaiting a collaborator's promise. *)
Definition await {A} (r : Reply A) : Async A :=
  match r with
  | Resolves a => mret a
  | Rejects e => throw e
  end.

(** [parts.join(sep)] on an array of strings *)
Fixpoint join (sep : string) (parts : list string) : string :=
  match parts with
  | [] => ""
  | p :: rest =>
      match rest with
      | [] => p
      | _ :: _ => p +:+ sep +:+ join sep rest
      end
  end.

(** A line or column number where a string is expected. *)
Definition Number_toString (n : N) : string := pretty n.

#[global] Instance CodeAction_inhabited : Inhabited CodeAction :=
  populate (CodeAction_new "" QuickFix).

(** The key of a resource in the two collections. *)
Definition collectionKey (u : Uri) : string := fsPath u.

Section Dispatchers.
Context (env : Env).

(** *** [WorkerService]

    The registry itself is outside the dispatchers: a call to it is
    recorded, and the token it hands out comes from the environment. *)

Definition createCancellationToken (document : TextDocument)
    (parentCancellationToken : option CancellationToken)
    : Async (option CancellationToken) :=
  emit (EvCreateCancellationToken (uri document) parentCancellationToken);;
  mret (registryBegin env document parentCancellationToken).

Definition deleteCancellationToken (document : TextDocument) : Async unit :=
  emit (EvDeleteCancellationToken (uri document)).

(** *** Calls to the other collaborators *)

Definition linterStatus_start (u : Uri) : Async unit := emit (EvLinterStart u).

Definition linterStatus_stop (u : Uri) : Async unit := emit (EvLinterStop u).

Definition logger_error (e : JsError) : Async unit := emit (EvLoggerError e).

Definition configuration_get (document : TextDocument)
    (token : option CancellationToken) : Async Configuration :=
  emit (EvConfigurationGet (uri document) token);;
  await (configurationGet env document token).

Definition waitForAvailable (key : string) (token : CancellationToken)
    : Async Worker :=
  emit (EvWaitForAvailable key token);;
  await (poolWaitForAvailable env key token).

Definition getWorkspaceFolderOrDefault (u : Uri) : Async Uri :=
  emit (EvGetWorkspaceFolder u);;
  mret (workspaceFolderOrDefault env u).

Definition execute {t} (worker : Worker) (request : Request t)
    (token : CancellationToken) : Async (Response t) :=
  emit (EvExecute worker t request token);;
  await (workerExecute env t worker request token).

(** *** [DiagnosticUpdater] *)

Definition clearDocument (document : TextDocument) : Async unit :=
  modify (set_diagnosticCollection (delete (collectionKey (uri document))));;
  modify (set_codeActionCollection (delete (collectionKey (uri document)))).

Definition buildDiagnosticCodeActions (document : TextDocument)
    (diagnostics : list Diagnostic) : list CodeAction :=
  (λ diagnostic,
     let action :=
       CodeAction_new ("Ignore " +:+ code diagnostic +:+ " for this line")
         QuickFix in
     let action := set_diagnostics [diagnostic] action in
     let action :=
       set_command
         {| commandTitle := "Ignore Laravel PHP_CodeSniffer";
            command := IgnoreLineCommand_COMMAND env;
            arguments :=
              [ArgDocument document; ArgString (code diagnostic);
               ArgNumber (line (start (range diagnostic)))] |}
         action in
     action)
  <$> diagnostics.

(** [new UpdatePreventedError()] *)
Definition UpdatePreventedError_new : JsError :=
  {| errorClass := UpdatePreventedError; errorMessage := "" |}.

(** The loop over [configuration.exclude]: the first pattern that matches
    the path clears the document and prevents the update. *)
Fixpoint checkExclude (document : TextDocument) (patterns : list RegExp)
    : Async unit :=
  match patterns with
  | [] => mret tt
  | pattern :: patterns =>
      if test pattern (fsPath (uri document)) then
        clearDocument document;;
        throw UpdatePreventedError_new
      else checkExclude document patterns
  end.

(** The [switch] on the action that triggered the update. *)
Definition checkLintAction (trigger : LintAction.t)
    (configuration : Configuration) : Async unit :=
  match trigger with
  | LintAction.Change =>
      if decide (lintAction configuration = LintAction.Save)
      then throw UpdatePreventedError_new
      else mret tt
  | LintAction.Save =>
      if decide (lintAction configuration = LintAction.Change)
      then throw UpdatePreventedError_new
      else mret tt
  | LintAction.Other _ => mret tt
  end.

Definition diagnosticKey (document : TextDocument) : string :=
  "diagnostic:" +:+ fileName document.

Definition diagnosticRequest (document : TextDocument)
    (configuration : Configuration) (workspaceUri : Uri)
    : Request ReportType.Diagnostic :=
  {| workingDirectory := fsPath workspaceUri;
     documentPath := fsPath (uri document);
     documentContent := getText document;
     options := {| optExecutable := executable configuration;
                   optStandard := standard configuration |};
     data := tt : RequestData ReportType.Diagnostic |}.

(** The first [then] of [update], from the configuration to the response
    of the worker. *)
Definition updateRequest (document : TextDocument)
    (trigger : LintAction.t) (cancellationToken : CancellationToken)
    (configuration : Configuration) : Async (Response ReportType.Diagnostic) :=
  checkExclude document (exclude configuration);;
  checkLintAction trigger configuration;;
  worker ← waitForAvailable (diagnosticKey document) cancellationToken;
  workspaceUri ← getWorkspaceFolderOrDefault (uri document);
  execute worker (diagnosticRequest document configuration workspaceUri)
    cancellationToken.

(** The second [then] of [update]: the response of the worker. *)
Definition updateResponse (document : TextDocument)
    (response : Response ReportType.Diagnostic) : Async unit :=
  deleteCancellationToken document;;
  linterStatus_stop (uri document);;
  match report response with
  | None => clearDocument document
  | Some report =>
      modify (set_diagnosticCollection
        (<[collectionKey (uri document) := reportDiagnostics report]>));;
      codeActions ← allocateAll
        (reportCodeActions report
         ++ buildDiagnosticCodeActions document (reportDiagnostics report));
      modify (set_codeActionCollection
        (<[collectionKey (uri document) := codeActions]>))
  end.

(** The [catch] of [update]. *)
Definition updateCatch (document : TextDocument) (e : JsError)
    : Async unit :=
  if instanceof e CancellationError then mret tt
  else
    linterStatus_stop (uri document);;
    if instanceof e ConfigurationError then logger_error e
    else if instanceof e UpdatePreventedError then mret tt
    else if instanceof e PHPCSError then logger_error e
    else throw e.

(** The chain of [update] up to the response of the worker. *)
Definition updateFetch (document : TextDocument) (trigger : LintAction.t)
    (cancellationToken : CancellationToken)
    : Async (Response ReportType.Diagnostic) :=
  configuration_get document (Some cancellationToken)
  ≫= updateRequest document trigger cancellationToken.

(** The chain of [update] up to its [catch]. *)
Definition updateChain (document : TextDocument) (trigger : LintAction.t)
    (cancellationToken : CancellationToken) : Async unit :=
  updateFetch document trigger cancellationToken
  ≫= updateResponse document.

(** The whole chain of [update]. *)
Definition updateSettled (document : TextDocument) (trigger : LintAction.t)
    (cancellationToken : CancellationToken) : Async unit :=
  catch (updateChain document trigger cancellationToken)
    (updateCatch document).

(** [DiagnosticUpdater.update].  The method returns at once; what is
    embedded is the method with the promise chain it starts, and the
    result is how that chain settles. *)
Definition update (document : TextDocument) (trigger : LintAction.t)
    : Async unit :=
  cancellationToken ← createCancellationToken document None;
  match cancellationToken with
  | None => mret tt
  | Some cancellationToken =>
      linterStatus_start (uri document);;
      emit (EvOnCancellationRequested cancellationToken (uri document));;
      updateSettled document trigger cancellationToken
  end.

(** *** [CodeActionEditResolver] *)

(** Reading the code action object behind a reference. *)
Definition deref (codeAction : Ref) : Async CodeAction :=
  λ s, (Fulfilled (heap s !!! codeAction), s).

Definition resolveKey (document : TextDocument) (diagnostic : Diagnostic)
    : string :=
  join ":"
    ["resolve"; fileName document; code diagnostic;
     Number_toString (line (start (range diagnostic)));
     Number_toString (character (start (range diagnostic)))].

Definition codeActionRequest (document : TextDocument)
    (diagnostic : Diagnostic) (config : Configuration) (workspaceUri : Uri)
    : Request ReportType.CodeAction :=
  {| workingDirectory := fsPath workspaceUri;
     documentPath := fsPath (uri document);
     documentContent := getText document;
     options := {| optExecutable := executable config;
                   optStandard := standard config |};
     data := {| dataCode := code diagnostic;
                dataLine := line (start (range diagnostic));
                dataCharacter := character (start (range diagnostic)) |}
             : RequestData ReportType.CodeAction |}.

(** The chain of [resolve] from the configuration to the response of the
    worker: its first two [then]s. *)
Definition resolveRequest (document : TextDocument)
    (diagnostic : Diagnostic) (cancellationToken : CancellationToken)
    : Async (Response ReportType.CodeAction) :=
  configuration_get document (Some cancellationToken);;
  worker ← waitForAvailable (resolveKey document diagnostic)
             cancellationToken;
  workspaceUri ← getWorkspaceFolderOrDefault (uri document);
  config ← configuration_get document None;
  execute worker (codeActionRequest document diagnostic config workspaceUri)
    cancellationToken.

(** The third [then] of [resolve]: the response of the worker. *)
Definition resolveResponse (document : TextDocument) (codeAction : Ref)
    (response : Response ReportType.CodeAction) : Async Ref :=
  deleteCancellationToken document;;
  match report response with
  | Some report =>
      object ← deref codeAction;
      modify (set_heap (<[codeAction :=
        set_edit (WorkspaceEdit_set (uri document) (edits report)
                    WorkspaceEdit_new) object]>));;
      mret codeAction
  | None => mret codeAction
  end.

(** The [catch] of [resolve]. *)
Definition resolveCatch (codeAction : Ref) (e : JsError) : Async Ref :=
  if instanceof e CancellationError then mret codeAction
  else if instanceof e ConfigurationError then
    logger_error e;; mret codeAction
  else if instanceof e PHPCSError then
    logger_error e;; mret codeAction
  else throw e.

(** The chain of [resolve] up to its [catch]. *)
Definition resolveChain (document : TextDocument) (diagnostic : Diagnostic)
    (codeAction : Ref) (cancellationToken : CancellationToken) : Async Ref :=
  resolveRequest document diagnostic cancellationToken
  ≫= resolveResponse document codeAction.

(** The whole chain of [resolve]. *)
Definition resolveSettled (document : TextDocument)
    (diagnostic : Diagnostic) (codeAction : Ref)
    (cancellationToken : CancellationToken) : Async Ref :=
  catch (resolveChain document diagnostic codeAction cancellationToken)
    (resolveCatch codeAction).

(** [CodeActionEditResolver.resolve]: the promise it returns. *)
Definition resolve (codeAction : Ref)
    (parentCancellationToken : option CancellationToken) : Async Ref :=
  object ← deref codeAction;
  match document object, diagnostics object with
  | Some document, Some [diagnostic] =>
      cancellationToken ←
        createCancellationToken document parentCancellationToken;
      match cancellationToken with
      | None => mret codeAction
      | Some cancellationToken =>
          resolveSettled document diagnostic codeAction cancellationToken
      end
  | _, _ => mret codeAction
  end.
End Dispatchers.

(** ** Sample inputs *)

Module Sample.
Definition doc : TextDocument :=
  {| uri := {| fsPath := "/w/app/User.php" |};
     fileName := "/w/app/User.php";
     getText := "<?php echo $_GET['q'];" |}.

Definition vendorDoc : TextDocument :=
  {| uri := {| fsPath := "/w/vendor/lib.php" |};
     fileName := "/w/vendor/lib.php";
     getText := "<?php" |}.

Definition diag : Diagnostic :=
  {| code := "Laravel.Security.Echo";
     range := {| start := {| line := 12; character := 4 |};
                 end_ := {| line := 12; character := 20 |} |};
     message := "Unescaped output" |}.

(** A pattern that matches the path of [vendorDoc] and no other. *)
Definition vendorPattern : RegExp :=
  {| test := λ path, bool_decide (path = "/w/vendor/lib.php") |}.

Definition config (a : LintAction.t) : Configuration :=
  {| exclude := [vendorPattern]; lintAction := a;
     executable := "phpcs"; standard := "laravel_security_sniffer" |}.

Definition fixEdit : TextEdit :=
  {| editRange := range diag; newText := "e($_GET['q'])" |}.

Definition reportFor (t : ReportType.t) : Report t :=
  match t with
  | ReportType.Diagnostic =>
      {| reportDiagnostics := [diag]; reportCodeActions := [] |}
  | ReportType.CodeAction => {| edits := [fixEdit] |}
  end.

(** Every collaborator succeeds and the worker reports findings. *)
Definition env (a : LintAction.t) : Env :=
  {| registryBegin := λ _ _, Some 1;
     configurationGet := λ _ _, Resolves (config a);
     poolWaitForAvailable := λ _ _, Resolves 7;
     workerExecute := λ t _ _ _, Resolves {| report := Some (reportFor t) |};
     workspaceFolderOrDefault := λ _, {| fsPath := "/w" |};
     IgnoreLineCommand_COMMAND := "phpCodeSniffer.ignoreLine" |}.

(** The worker finds nothing. *)
Definition quietEnv : Env :=
  {| registryBegin := λ _ _, Some 1;
     configurationGet := λ _ _, Resolves (config LintAction.Change);
     poolWaitForAvailable := λ _ _, Resolves 7;
     workerExecute := λ t _ _ _, Resolves {| report := None |};
     workspaceFolderOrDefault := λ _, {| fsPath := "/w" |};
     IgnoreLineCommand_COMMAND := "phpCodeSniffer.ignoreLine" |}.

(** The external tool fails with [e]. *)
Definition failingEnv (e : JsError) : Env :=
  {| registryBegin := λ _ _, Some 1;
     configurationGet := λ _ _, Resolves (config LintAction.Change);
     poolWaitForAvailable := λ _ _, Resolves 7;
     workerExecute := λ t _ _ _, Rejects e;
     workspaceFolderOrDefault := λ _, {| fsPath := "/w" |};
     IgnoreLineCommand_COMMAND := "phpCodeSniffer.ignoreLine" |}.

(** The registry has been torn down. *)
Definition closedEnv : Env :=
  {| registryBegin := λ _ _, None;
     configurationGet := λ _ _, Resolves (config LintAction.Change);
     poolWaitForAvailable := λ _ _, Resolves 7;
     workerExecute := λ t _ _ _, Resolves {| report := None |};
     workspaceFolderOrDefault := λ _, {| fsPath := "/w" |};
     IgnoreLineCommand_COMMAND := "phpCodeSniffer.ignoreLine" |}.

Definition action : CodeAction :=
  {| title := "Fix Laravel.Security.Echo"; kind := Some QuickFix;
     diagnostics := Some [diag]; actionCommand := None; edit := None;
     document := Some doc |}.

(** A code action that remembers no document. *)
Definition strayAction : CodeAction :=
  {| title := "Fix Laravel.Security.Echo"; kind := Some QuickFix;
     diagnostics := Some [diag]; actionCommand := None; edit := None;
     document := None |}.

Definition phpcsError : JsError :=
  {| errorClass := PHPCSError;
     errorMessage := "Fatal error: Uncaught Error in Sniff.php" |}.

Definition cancelled : JsError :=
  {| errorClass := CancellationError; errorMessage := "Canceled" |}.

Definition typeError : JsError :=
  {| errorClass := OtherError "TypeError";
     errorMessage := "Cannot read properties of undefined" |}.

Definition s0 : State :=
  {| diagnosticCollection :=
       {[ "/w/vendor/lib.php" := [diag]; "/w/app/User.php" := [diag] ]};
     codeActionCollection :=
       {[ "/w/vendor/lib.php" := [1]; "/w/app/User.php" := [0] ]};
     heap := {[ 0 := action; 1 := strayAction ]};
     trace := [] |}.
End Sample.

(** More sample inputs. *)
Module Sample2.
(** A pattern that matches the path of [Sample.doc] and no other. *)
Definition appPattern : RegExp :=
  {| test := λ path, bool_decide (path = "/w/app/User.php") |}.

(** The diagnostic [Sample.diag] as a later run reports it: the same code
    at the same place, with another message. *)
Definition diagAgain : Diagnostic :=
  {| code := "Laravel.Security.Echo";
     range := {| start := {| line := 12; character := 4 |};
                 end_ := {| line := 12; character := 24 |} |};
     message := "Unescaped output of user input" |}.

(** The ignore-line quick fix of [Sample.diag]. *)
Definition ignoreAction : CodeAction :=
  {| title := "Ignore Laravel.Security.Echo for this line";
     kind := Some QuickFix;
     diagnostics := Some [Sample.diag];
     actionCommand := Some
       {| commandTitle := "Ignore Laravel PHP_CodeSniffer";
          command := "phpCodeSniffer.ignoreLine";
          arguments :=
            [ArgDocument Sample.doc; ArgString "Laravel.Security.Echo";
             ArgNumber 12] |};
     edit := None;
     document := None |}.

(** A fix the worker reports for [diagAgain]. *)
Definition fixAction : CodeAction :=
  {| title := "Fix Laravel.Security.Echo"; kind := Some QuickFix;
     diagnostics := Some [diagAgain]; actionCommand := None; edit := None;
     document := Some Sample.doc |}.

Definition wrapEdit : TextEdit :=
  {| editRange := {| start := {| line := 12; character := 9 |};
                     end_ := {| line := 12; character := 19 |} |};
     newText := "e($_GET['q'])" |}.

Definition semicolonEdit : TextEdit :=
  {| editRange := {| start := {| line := 12; character := 20 |};
                     end_ := {| line := 12; character := 20 |} |};
     newText := ";" |}.

Definition reportFor (t : ReportType.t) : Report t :=
  match t with
  | ReportType.Diagnostic =>
      {| reportDiagnostics := [diagAgain]; reportCodeActions := [fixAction] |}
  | ReportType.CodeAction => {| edits := [wrapEdit; semicolonEdit] |}
  end.

(** Every collaborator succeeds; the worker reports [diagAgain] with a fix
    for it, and two edits for a fix. *)
Definition env : Env :=
  {| registryBegin := λ _ _, Some 1;
     configurationGet := λ _ _, Resolves (Sample.config LintAction.Change);
     poolWaitForAvailable := λ _ _, Resolves 7;
     workerExecute := λ t _ _ _, Resolves {| report := Some (reportFor t) |};
     workspaceFolderOrDefault := λ _, {| fsPath := "/w" |};
     IgnoreLineCommand_COMMAND := "phpCodeSniffer.ignoreLine" |}.

(** The ignore-line quick fix of [diagAgain]. *)
Definition ignoreAgain : CodeAction :=
  {| title := "Ignore Laravel.Security.Echo for this line";
     kind := Some QuickFix;
     diagnostics := Some [diagAgain];
     actionCommand := Some
       {| commandTitle := "Ignore Laravel PHP_CodeSniffer";
          command := "phpCodeSniffer.ignoreLine";
          arguments :=
            [ArgDocument Sample.doc; ArgString "Laravel.Security.Echo";
             ArgNumber 12] |};
     edit := None;
     document := None |}.

(** The state after an update of [Sample.doc] in [env]: the collection holds
    two new objects for it, the reported fix and the quick fix. *)
Definition updated : State :=
  (update env Sample.doc LintAction.Change Sample.s0).2.

(** A state whose only code action object is that quick fix. *)
Definition s1 : State :=
  {| diagnosticCollection := ∅;
     codeActionCollection := {[ "/w/app/User.php" := [5] ]};
     heap := {[ 5 := ignoreAction ]};
     trace := [] |}.
End Sample2.

(** ** Reading a trace *)

(** The keys passed to [WorkerPool.waitForAvailable], in order. *)
Definition poolRequests (tr : list Event) : list string :=
  omap (λ ev, match ev with EvWaitForAvailable key _ => Some key | _ => None end)
    tr.

(** The errors passed to [Logger.error], in order. *)
Definition logged (tr : list Event) : list JsError :=
  omap (λ ev, match ev with EvLoggerError e => Some e | _ => None end) tr.

(** The resources [deleteCancellationToken] was called for, in order. *)
Definition deletions (tr : list Event) : list Uri :=
  omap (λ ev, match ev with EvDeleteCancellationToken u => Some u | _ => None end)
    tr.

(** The resources [LinterStatus.start] was called for. *)
Definition linterStarts (tr : list Event) : list Uri :=
  omap (λ ev, match ev with EvLinterStart u => Some u | _ => None end) tr.

(** The resources whose configuration was asked for. *)
Definition configurationReads (tr : list Event) : list Uri :=
  omap (λ ev, match ev with EvConfigurationGet u _ => Some u | _ => None end) tr.

(** The resources [LinterStatus.stop] was called for. *)
Definition linterStops (tr : list Event) : list Uri :=
  omap (λ ev, match ev with EvLinterStop u => Some u | _ => None end) tr.

(** The diagnostic requests handed to [Worker.execute], each with the worker
    and the token, in order. *)
Definition diagnosticExecutions (tr : list Event)
    : list (Worker * Request ReportType.Diagnostic * CancellationToken) :=
  omap (λ ev,
    match ev with
    | EvExecute w ReportType.Diagnostic request token =>
        Some (w, request, token)
    | _ => None
    end) tr.

(** The code action requests handed to [Worker.execute], each with the
    worker and the token, in order. *)
Definition codeActionExecutions (tr : list Event)
    : list (Worker * Request ReportType.CodeAction * CancellationToken) :=
  omap (λ ev,
    match ev with
    | EvExecute w ReportType.CodeAction request token =>
        Some (w, request, token)
    | _ => None
    end) tr.

(** The tokens [Configuration.get] was called with, in order; [None] is a
    call without a token. *)
Definition configurationTokens (tr : list Event)
    : list (option CancellationToken) :=
  omap (λ ev, match ev with EvConfigurationGet _ t => Some t | _ => None end)
    tr.

(** What the code action collection shows for a resource: the objects it
    holds, read through their references. *)
Definition codeActionsOf (s : State) (key : string)
    : option (list CodeAction) :=
  stored ← codeActionCollection s !! key;
  mapM (λ ref, heap s !! ref) stored.

(** A decimal digit. *)
Definition isDigit (c : ascii) : Prop :=
  c ∈ ["0"; "1"; "2"; "3"; "4"; "5"; "6"; "7"; "8"; "9"]%char.

(** The characters of a string are decimal digits. *)
Fixpoint digits (str : string) : Prop :=
  match str with
  | EmptyString => True
  | String c rest => isDigit c ∧ digits rest
  end.

(** ** What the claims speak of *)

(** The path of the document matches one of the exclude patterns. *)
Definition excluded (document : TextDocument) (configuration : Configuration)
    : Prop :=
  Exists (λ pattern, test pattern (fsPath (uri document)) = true)
    (exclude configuration).

#[global] Instance excluded_dec document configuration :
  Decision (excluded document configuration).
Proof. unfold excluded. apply _. Defined.

(** The trigger is [Change] while the user lints on [Save], or the other way
    round. *)
Definition mismatched (trigger configured : LintAction.t) : Prop :=
  (trigger = LintAction.Change ∧ configured = LintAction.Save)
  ∨ (trigger = LintAction.Save ∧ configured = LintAction.Change).

(** The state in which [update] starts its chain. *)
Definition updateStarted (document : TextDocument)
    (cancellationToken : CancellationToken) (s : State) : State :=
  record (EvOnCancellationRequested cancellationToken (uri document))
    (record (EvLinterStart (uri document))
       (record (EvCreateCancellationToken (uri document) None) s)).

(** The state in which [resolve] starts its chain. *)
Definition resolveStarted (document : TextDocument)
    (parentCancellationToken : option CancellationToken) (s : State) : State :=
  record (EvCreateCancellationToken (uri document) parentCancellationToken) s.

(** The state after [clearDocument]. *)
Definition cleared (document : TextDocument) (s : State) : State :=
  set_codeActionCollection (delete (collectionKey (uri document)))
    (set_diagnosticCollection (delete (collectionKey (uri document))) s).

(** An ignore-line quick fix for a diagnostic. *)
Definition ignoresLine (env : Env) (document : TextDocument)
    (diagnostic : Diagnostic) (action : CodeAction) : Prop :=
  title action = "Ignore " +:+ code diagnostic +:+ " for this line"
  ∧ kind action = Some QuickFix
  ∧ diagnostics action = Some [diagnostic]
  ∧ edit action = None
  ∧ ∃ cmd, actionCommand action = Some cmd
      ∧ command cmd = IgnoreLineCommand_COMMAND env
      ∧ arguments cmd =
          [ArgDocument document; ArgString (code diagnostic);
           ArgNumber (line (start (range diagnostic)))].

(** A code action the resolver accepts: it has a document and exactly one
    diagnostic. *)
Definition resolvable (object : CodeAction) (target : TextDocument)
    (diagnostic : Diagnostic) : Prop :=
  document object = Some target ∧ diagnostics object = Some [diagnostic].

(** ** Properties *)

(** Runs the monad's operations on the state at hand. *)
Ltac run :=
  repeat (unfold mbind, mret, Async_bind, Async_ret, emit, modify, throw,
    catch, await, allocateAll; simpl).

Lemma poolRequests_app (tr1 tr2 : list Event) :
  poolRequests (tr1 ++ tr2) = poolRequests tr1 ++ poolRequests tr2.
Proof. apply omap_app. Qed.

Lemma logged_app (tr1 tr2 : list Event) :
  logged (tr1 ++ tr2) = logged tr1 ++ logged tr2.
Proof. apply omap_app. Qed.

Lemma deletions_app (tr1 tr2 : list Event) :
  deletions (tr1 ++ tr2) = deletions tr1 ++ deletions tr2.
Proof. apply omap_app. Qed.

(** Splits on how the collaborators reply, on the report of a response and
    on the class of a caught error, and runs each case. *)
Ltac cases :=
  repeat (run;
    match goal with
    | |- context [match ?r with Resolves _ => _ | Rejects _ => _ end] =>
        destruct r eqn:?
    | |- context [match report ?r with Some _ => _ | None => _ end] =>
        destruct (report r) eqn:?
    | |- context [instanceof ?e _] =>
        unfold instanceof; destruct (errorClass e) eqn:?
    end).

(** Reads the trace of the state reached. *)
Ltac observe :=
  simpl; rewrite ?poolRequests_app, ?logged_app, ?deletions_app; simpl;
  rewrite ?app_nil_r.

Section Properties.
Context (env : Env).

(** The exclude loop, when some pattern matches. *)
Lemma checkExclude_excluded (document : TextDocument)
    (patterns : list RegExp) (s : State) :
  Exists (λ pattern, test pattern (fsPath (uri document)) = true) patterns →
  checkExclude document patterns s
  = (Rejected UpdatePreventedError_new, cleared document s).
Proof.
  induction 1 as [pattern patterns Hhit | pattern patterns _ IH]; simpl.
  - by rewrite Hhit.
  - destruct (test pattern _); [done | apply IH].
Qed.

(** The exclude loop, when no pattern matches. *)
Lemma checkExclude_included (document : TextDocument)
    (patterns : list RegExp) (s : State) :
  ¬ Exists (λ pattern, test pattern (fsPath (uri document)) = true) patterns →
  checkExclude document patterns s = (Fulfilled tt, s).
Proof.
  induction patterns as [| pattern patterns IH]; [done |].
  intros Hnone. simpl.
  destruct (test pattern _) eqn:Hhit.
  - destruct Hnone. by left.
  - apply IH. intros Hlater. apply Hnone. by right.
Qed.

(** The [switch] on the trigger, when it prevents the update. *)
Lemma checkLintAction_mismatched (trigger : LintAction.t)
    (configuration : Configuration) (s : State) :
  mismatched trigger (lintAction configuration) →
  checkLintAction trigger configuration s
  = (Rejected UpdatePreventedError_new, s).
Proof.
  unfold checkLintAction.
  intros [[-> Hconfigured] | [-> Hconfigured]]; by rewrite decide_True.
Qed.

(** The [switch] on the trigger, when it lets the update pass. *)
Lemma checkLintAction_matched (trigger : LintAction.t)
    (configuration : Configuration) (s : State) :
  ¬ mismatched trigger (lintAction configuration) →
  checkLintAction trigger configuration s = (Fulfilled tt, s).
Proof.
  unfold checkLintAction, mismatched. intros Hmatched.
  destruct trigger; [| | done]; case_decide; naive_solver.
Qed.

(** With a token, [update] is its chain run from [updateStarted]. *)
Lemma update_started (document : TextDocument) (trigger : LintAction.t)
    (token : CancellationToken) (s : State) :
  registryBegin env document None = Some token →
  update env document trigger s
  = updateSettled env document trigger token (updateStarted document token s).
Proof.
  intros Htoken. unfold update, createCancellationToken.
  cbn. rewrite Htoken. reflexivity.
Qed.

(** How [update] runs on an excluded document. *)
Lemma update_excluded_run (document : TextDocument) (trigger : LintAction.t)
    (token : CancellationToken) (configuration : Configuration) (s : State) :
  registryBegin env document None = Some token →
  configurationGet env document (Some token) = Resolves configuration →
  excluded document configuration →
  updateChain env document trigger token (updateStarted document token s)
  = (Rejected UpdatePreventedError_new,
     cleared document
       (record (EvConfigurationGet (uri document) (Some token))
          (updateStarted document token s)))
  ∧ update env document trigger s
    = (Fulfilled tt,
       record (EvLinterStop (uri document))
         (cleared document
            (record (EvConfigurationGet (uri document) (Some token))
               (updateStarted document token s)))).
Proof.
  intros Htoken Hconfiguration Hexcluded.
  rewrite (update_started _ _ _ _ Htoken).
  unfold updateSettled, updateChain, updateFetch, configuration_get,
    updateRequest.
  run. rewrite Hconfiguration. run.
  rewrite checkExclude_excluded by done. by run.
Qed.

Lemma update_excluded_absorbed (document : TextDocument)
    (trigger : LintAction.t) (token : CancellationToken)
    (configuration : Configuration) (s : State) :
  registryBegin env document None = Some token →
  configurationGet env document (Some token) = Resolves configuration →
  excluded document configuration →
  (updateChain env document trigger token
     (updateStarted document token s)).1
  = Rejected UpdatePreventedError_new
  ∧ (update env document trigger s).1 = Fulfilled tt
  ∧ logged (trace (update env document trigger s).2) = logged (trace s)
  ∧ poolRequests (trace (update env document trigger s).2)
    = poolRequests (trace s).
Proof.
  intros Htoken Hconfiguration Hexcluded.
  destruct (update_excluded_run document trigger token configuration s)
    as [-> ->]; [done .. |].
  repeat split; simpl.
  - rewrite !logged_app. simpl. by rewrite !app_nil_r.
  - rewrite !poolRequests_app. simpl. by rewrite !app_nil_r.
Qed.

(** C4: when the path of the document matches one of the configured
    exclude patterns, the chain of [update] is aborted with an
    [UpdatePreventedError], the [catch] absorbs it (the chain fulfils and
    nothing is passed to the logger), and [waitForAvailable] is not
    called. *)
Theorem excluded_document_never_reaches_pool (document : TextDocument)
    (trigger : LintAction.t) (token : CancellationToken)
    (configuration : Configuration) (s : State) :
  registryBegin env document None = Some token →
  configurationGet env document (Some token) = Resolves configuration →
  excluded document configuration →
  (updateChain env document trigger token
     (updateStarted document token s)).1
  = Rejected UpdatePreventedError_new
  ∧ (update env document trigger s).1 = Fulfilled tt
  ∧ logged (trace (update env document trigger s).2) = logged (trace s)
  ∧ poolRequests (trace (update env document trigger s).2)
    = poolRequests (trace s).
Proof. apply update_excluded_absorbed. Qed.

(** C10: when the path of the document matches an exclude pattern,
    [update] deletes the entries of the document from the diagnostic
    collection and from the code action collection, and then its chain
    fulfils; the entries of other documents stay. *)
Theorem excluded_document_is_cleared (document : TextDocument)
    (trigger : LintAction.t) (token : CancellationToken)
    (configuration : Configuration) (s : State) :
  registryBegin env document None = Some token →
  configurationGet env document (Some token) = Resolves configuration →
  excluded document configuration →
  (update env document trigger s).1 = Fulfilled tt
  ∧ diagnosticCollection (update env document trigger s).2
    = delete (collectionKey (uri document)) (diagnosticCollection s)
  ∧ codeActionCollection (update env document trigger s).2
    = delete (collectionKey (uri document)) (codeActionCollection s)
  ∧ diagnosticCollection (update env document trigger s).2
      !! collectionKey (uri document) = None
  ∧ codeActionCollection (update env document trigger s).2
      !! collectionKey (uri document) = None.
Proof.
  intros Htoken Hconfiguration Hexcluded.
  destruct (update_excluded_run document trigger token configuration s)
    as [_ ->]; [done .. |].
  simpl. repeat split; apply lookup_delete_eq.
Qed.

(** An update whose trigger does not fit the configured action is aborted
    before the pool is asked. *)
Lemma update_mismatched_absorbed (document : TextDocument)
    (trigger : LintAction.t) (token : CancellationToken)
    (configuration : Configuration) (s : State) :
  registryBegin env document None = Some token →
  configurationGet env document (Some token) = Resolves configuration →
  mismatched trigger (lintAction configuration) →
  (updateChain env document trigger token
     (updateStarted document token s)).1
  = Rejected UpdatePreventedError_new
  ∧ (update env document trigger s).1 = Fulfilled tt
  ∧ logged (trace (update env document trigger s).2) = logged (trace s)
  ∧ poolRequests (trace (update env document trigger s).2)
    = poolRequests (trace s).
Proof.
  intros Htoken Hconfiguration Hmismatched.
  destruct (decide (excluded document configuration))
    as [Hexcluded | Hincluded].
  { by apply (update_excluded_absorbed _ _ _ configuration). }
  rewrite (update_started _ _ _ _ Htoken).
  unfold updateSettled, updateChain, updateFetch, configuration_get,
    updateRequest.
  run. rewrite Hconfiguration. run.
  rewrite checkExclude_included by done. run.
  rewrite checkLintAction_mismatched by done. by observe.
Qed.

(** An update that is past the exclude patterns and the trigger check asks
    the pool for a worker, with the key of the document. *)
Lemma update_requests_pool (document : TextDocument)
    (trigger : LintAction.t) (token : CancellationToken)
    (configuration : Configuration) (s : State) :
  registryBegin env document None = Some token →
  configurationGet env document (Some token) = Resolves configuration →
  ¬ excluded document configuration →
  ¬ mismatched trigger (lintAction configuration) →
  poolRequests (trace (update env document trigger s).2)
  = poolRequests (trace s) ++ [diagnosticKey document].
Proof.
  intros Htoken Hconfiguration Hincluded Hmatched.
  rewrite (update_started _ _ _ _ Htoken).
  unfold updateSettled, updateChain, updateFetch, configuration_get,
    updateRequest, waitForAvailable.
  run. rewrite Hconfiguration. run.
  rewrite checkExclude_included by done. run.
  rewrite checkLintAction_matched by done.
  unfold execute, updateResponse, updateCatch, clearDocument,
    deleteCancellationToken, linterStatus_stop, logger_error.
  cases; by observe.
Qed.

(** C5: with the configuration at hand, an update triggered by [Change]
    while the user lints on [Save], or triggered by [Save] while the user
    lints on [Change], is aborted with an [UpdatePreventedError] that the
    [catch] absorbs, and [waitForAvailable] is not called; with any other
    pair of trigger and configured action, an update that is past the
    exclude patterns asks the pool for a worker. *)
Theorem trigger_mode_gates_update (document : TextDocument)
    (trigger : LintAction.t) (token : CancellationToken)
    (configuration : Configuration) (s : State) :
  registryBegin env document None = Some token →
  configurationGet env document (Some token) = Resolves configuration →
  (mismatched trigger (lintAction configuration) →
     (updateChain env document trigger token
        (updateStarted document token s)).1
     = Rejected UpdatePreventedError_new
     ∧ (update env document trigger s).1 = Fulfilled tt
     ∧ logged (trace (update env document trigger s).2) = logged (trace s)
     ∧ poolRequests (trace (update env document trigger s).2)
       = poolRequests (trace s))
  ∧ (¬ mismatched trigger (lintAction configuration) →
     ¬ excluded document configuration →
     poolRequests (trace (update env document trigger s).2)
     = poolRequests (trace s) ++ [diagnosticKey document]).
Proof.
  intros Htoken Hconfiguration. split.
  - by apply update_mismatched_absorbed.
  - intros Hmatched Hincluded.
    by apply (update_requests_pool _ _ token configuration).
Qed.
(** With a code action it accepts and a token, [resolve] is its chain run
    from [resolveStarted]. *)
Lemma resolve_started (codeAction : Ref)
    (parent : option CancellationToken) (s : State) (object : CodeAction)
    (document : TextDocument) (diagnostic : Diagnostic)
    (token : CancellationToken) :
  heap s !! codeAction = Some object →
  resolvable object document diagnostic →
  registryBegin env document parent = Some token →
  resolve env codeAction parent s
  = resolveSettled env document diagnostic codeAction token
      (resolveStarted document parent s).
Proof.
  intros Hobject [Hdocument Hdiagnostics] Htoken.
  unfold resolve, deref, createCancellationToken. run.
  rewrite (lookup_total_correct _ _ _ Hobject), Hdocument, Hdiagnostics.
  run. by rewrite Htoken.
Qed.

(** The chain of [update] passes nothing to the logger. *)
Lemma updateChain_logged (document : TextDocument) (trigger : LintAction.t)
    (token : CancellationToken) (s : State) :
  logged (trace (updateChain env document trigger token s).2)
  = logged (trace s).
Proof.
  unfold updateChain, updateFetch, configuration_get, updateRequest.
  run. destruct (configurationGet _ _ _) as [configuration | e]; run;
    [| by observe].
  destruct (decide (excluded document configuration)).
  { rewrite checkExclude_excluded by done. by observe. }
  rewrite checkExclude_included by done. run.
  unfold checkLintAction, waitForAvailable, getWorkspaceFolderOrDefault,
    execute, updateResponse, clearDocument, deleteCancellationToken,
    linterStatus_stop.
  destruct trigger; repeat case_decide; cases; by observe.
Qed.

(** A chain of [update] that rejects with anything but an
    [UpdatePreventedError] has not touched the two collections. *)
Lemma updateChain_rejected_collections (document : TextDocument)
    (trigger : LintAction.t) (token : CancellationToken) (s s1 : State)
    (e : JsError) :
  updateChain env document trigger token s = (Rejected e, s1) →
  errorClass e ≠ UpdatePreventedError →
  diagnosticCollection s1 = diagnosticCollection s
  ∧ codeActionCollection s1 = codeActionCollection s.
Proof.
  unfold updateChain, updateFetch, configuration_get, updateRequest.
  run. destruct (configurationGet _ _ _) as [configuration | e']; run;
    [| by intros [= <- <-]].
  destruct (decide (excluded document configuration)).
  { rewrite checkExclude_excluded by done. by intros [= <- <-]. }
  rewrite checkExclude_included by done. run.
  unfold checkLintAction, waitForAvailable, getWorkspaceFolderOrDefault,
    execute, updateResponse, clearDocument, deleteCancellationToken,
    linterStatus_stop.
  destruct trigger; repeat case_decide; cases; by intros [= <- <-].
Qed.

(** The chain of [resolve] passes nothing to the logger. *)
Lemma resolveChain_logged (document : TextDocument) (diagnostic : Diagnostic)
    (codeAction : Ref) (token : CancellationToken) (s : State) :
  logged (trace (resolveChain env document diagnostic codeAction token s).2)
  = logged (trace s).
Proof.
  unfold resolveChain, resolveRequest, configuration_get, waitForAvailable,
    getWorkspaceFolderOrDefault, execute, resolveResponse,
    deleteCancellationToken, deref.
  cases; by observe.
Qed.

(** A chain of [resolve] that rejects has not touched the code action. *)
Lemma resolveChain_rejected_heap (document : TextDocument)
    (diagnostic : Diagnostic) (codeAction : Ref) (token : CancellationToken)
    (s s1 : State) (e : JsError) :
  resolveChain env document diagnostic codeAction token s = (Rejected e, s1) →
  heap s1 = heap s.
Proof.
  unfold resolveChain, resolveRequest, configuration_get, waitForAvailable,
    getWorkspaceFolderOrDefault, execute, resolveResponse,
    deleteCancellationToken, deref.
  cases; by intros [= <- <-].
Qed.

Lemma updateStarted_logged (document : TextDocument)
    (token : CancellationToken) (s : State) :
  logged (trace (updateStarted document token s)) = logged (trace s).
Proof. by observe. Qed.

(** C7: when [createCancellationToken] returns [null], [update] returns at
    once: it has called nothing but [createCancellationToken] (no linter
    status start, no configuration read, no request to the pool); and
    [resolve], given a code action it accepts, resolves at once with that
    code action, which it has not changed. *)
Theorem null_token_fails_fast :
  (∀ (document : TextDocument) (trigger : LintAction.t) (s : State),
     registryBegin env document None = None →
     update env document trigger s
     = (Fulfilled tt, record (EvCreateCancellationToken (uri document) None) s)
     ∧ linterStarts (trace (update env document trigger s).2)
       = linterStarts (trace s)
     ∧ configurationReads (trace (update env document trigger s).2)
       = configurationReads (trace s)
     ∧ poolRequests (trace (update env document trigger s).2)
       = poolRequests (trace s))
  ∧ (∀ (codeAction : Ref) (parent : option CancellationToken) (s : State)
       (object : CodeAction) (document : TextDocument)
       (diagnostic : Diagnostic),
     heap s !! codeAction = Some object →
     resolvable object document diagnostic →
     registryBegin env document parent = None →
     resolve env codeAction parent s
     = (Fulfilled codeAction,
        record (EvCreateCancellationToken (uri document) parent) s)
     ∧ heap (resolve env codeAction parent s).2 !! codeAction = Some object).
Proof.
  split.
  - intros document trigger s Htoken.
    assert (update env document trigger s
      = (Fulfilled tt, record (EvCreateCancellationToken (uri document) None) s))
      as ->.
    { unfold update, createCancellationToken. run. by rewrite Htoken. }
    unfold linterStarts, configurationReads, poolRequests. simpl.
    rewrite !omap_app. simpl. by rewrite !app_nil_r.
  - intros codeAction parent s object document diagnostic Hobject
      [Hdocument Hdiagnostics] Htoken.
    assert (resolve env codeAction parent s
      = (Fulfilled codeAction,
         record (EvCreateCancellationToken (uri document) parent) s)) as ->.
    { unfold resolve, deref, createCancellationToken. run.
      rewrite (lookup_total_correct _ _ _ Hobject), Hdocument, Hdiagnostics.
      run. by rewrite Htoken. }
    done.
Qed.

(** C9: a code action that has no document, or no list of diagnostics, or
    a list that does not hold exactly one diagnostic, is resolved at once
    to the same object; nothing is called (no token is created, no
    configuration is read, the pool is not asked) and no field of the
    object changes: the state is the one [resolve] started in. *)
Theorem invalid_code_action_resolves_unchanged (codeAction : Ref)
    (parent : option CancellationToken) (s : State) (object : CodeAction) :
  heap s !! codeAction = Some object →
  document object = None
  ∨ diagnostics object = None
  ∨ (∃ ds, diagnostics object = Some ds ∧ length ds ≠ 1) →
  resolve env codeAction parent s = (Fulfilled codeAction, s).
Proof.
  intros Hobject Hinvalid.
  unfold resolve, deref. run.
  rewrite (lookup_total_correct _ _ _ Hobject).
  destruct (document object) as [target |]; [| done].
  destruct (diagnostics object) as [[| diagnostic [| ? ?]] |]; try done.
  exfalso. destruct Hinvalid as [? | [? | (ds & [= <-] & Hlength)]]; try done.
Qed.
(** The [catch] of [update], class by class. *)
Lemma updateCatch_run (document : TextDocument) (e : JsError) (s : State) :
  updateCatch document e s =
  match errorClass e with
  | CancellationError => (Fulfilled tt, s)
  | ConfigurationError | PHPCSError =>
      (Fulfilled tt,
       record (EvLoggerError e) (record (EvLinterStop (uri document)) s))
  | UpdatePreventedError =>
      (Fulfilled tt, record (EvLinterStop (uri document)) s)
  | OtherError _ => (Rejected e, record (EvLinterStop (uri document)) s)
  end.
Proof.
  unfold updateCatch, instanceof, linterStatus_stop, logger_error.
  by destruct (errorClass e).
Qed.

(** The [catch] of [resolve], class by class. *)
Lemma resolveCatch_run (codeAction : Ref) (e : JsError) (s : State) :
  resolveCatch codeAction e s =
  match errorClass e with
  | CancellationError => (Fulfilled codeAction, s)
  | ConfigurationError | PHPCSError =>
      (Fulfilled codeAction, record (EvLoggerError e) s)
  | UpdatePreventedError | OtherError _ => (Rejected e, s)
  end.
Proof.
  unfold resolveCatch, instanceof, logger_error.
  by destruct (errorClass e).
Qed.

(** C3: when the chain of a dispatcher rejects with an error [e], so that
    [e] reaches the [catch]: a [CancellationError] is absorbed with no call
    at all, in particular none to the logger; a [ConfigurationError] and a
    [PHPCSError] are passed to [logger.error]; and in the three cases the
    dispatcher recovers: the chain of [update] fulfils, and [resolve]
    resolves with the code action it was given, which it has not changed. *)
Theorem catch_absorbs_known_errors :
  (∀ (document : TextDocument) (trigger : LintAction.t)
     (token : CancellationToken) (s s1 : State) (e : JsError),
     registryBegin env document None = Some token →
     updateChain env document trigger token (updateStarted document token s)
     = (Rejected e, s1) →
     (errorClass e = CancellationError →
        update env document trigger s = (Fulfilled tt, s1)
        ∧ logged (trace (update env document trigger s).2) = logged (trace s))
     ∧ (errorClass e = ConfigurationError ∨ errorClass e = PHPCSError →
        (update env document trigger s).1 = Fulfilled tt
        ∧ logged (trace (update env document trigger s).2)
          = logged (trace s) ++ [e]))
  ∧ (∀ (codeAction : Ref) (parent : option CancellationToken) (s s1 : State)
       (object : CodeAction) (document : TextDocument)
       (diagnostic : Diagnostic) (token : CancellationToken) (e : JsError),
     heap s !! codeAction = Some object →
     resolvable object document diagnostic →
     registryBegin env document parent = Some token →
     resolveChain env document diagnostic codeAction token
       (resolveStarted document parent s)
     = (Rejected e, s1) →
     (errorClass e = CancellationError →
        resolve env codeAction parent s = (Fulfilled codeAction, s1)
        ∧ logged (trace (resolve env codeAction parent s).2)
          = logged (trace s)
        ∧ heap (resolve env codeAction parent s).2 !! codeAction
          = Some object)
     ∧ (errorClass e = ConfigurationError ∨ errorClass e = PHPCSError →
        (resolve env codeAction parent s).1 = Fulfilled codeAction
        ∧ logged (trace (resolve env codeAction parent s).2)
          = logged (trace s) ++ [e]
        ∧ heap (resolve env codeAction parent s).2 !! codeAction
          = Some object)).
Proof.
  split.
  - intros document trigger token s s1 e Htoken Hchain.
    pose proof (updateChain_logged document trigger token
      (updateStarted document token s)) as Hlogged.
    rewrite Hchain, updateStarted_logged in Hlogged. simpl in Hlogged.
    rewrite (update_started _ _ _ _ Htoken).
    unfold updateSettled, catch. rewrite Hchain, updateCatch_run.
    split.
    + by intros ->.
    + intros [-> | ->]; observe; by rewrite Hlogged.
  - intros codeAction parent s s1 object document diagnostic token e
      Hobject Hresolvable Htoken Hchain.
    pose proof (resolveChain_logged document diagnostic codeAction token
      (resolveStarted document parent s)) as Hlogged.
    rewrite Hchain in Hlogged. simpl in Hlogged.
    rewrite logged_app in Hlogged. simpl in Hlogged.
    rewrite app_nil_r in Hlogged.
    pose proof (resolveChain_rejected_heap _ _ _ _ _ _ _ Hchain) as Hheap.
    simpl in Hheap.
    rewrite (resolve_started _ _ _ _ _ _ _ Hobject Hresolvable Htoken).
    unfold resolveSettled, catch. rewrite Hchain, resolveCatch_run.
    split.
    + intros ->. simpl. by rewrite Hheap.
    + intros [-> | ->]; observe; by rewrite Hlogged, Hheap.
Qed.

(** C8: when the chain of a dispatcher rejects with an error that is not a
    [CancellationError], a [ConfigurationError] or a [PHPCSError] (nor, in
    [update], an [UpdatePreventedError]), the dispatcher rejects with that
    same error; the logger is not called, and nothing is stored as if the
    tool had found nothing: the two collections, and the code action, are
    what they were. *)
Theorem catch_rethrows_unknown_errors :
  (∀ (document : TextDocument) (trigger : LintAction.t)
     (token : CancellationToken) (s s1 : State) (e : JsError),
     registryBegin env document None = Some token →
     updateChain env document trigger token (updateStarted document token s)
     = (Rejected e, s1) →
     errorClass e ≠ CancellationError →
     errorClass e ≠ ConfigurationError →
     errorClass e ≠ PHPCSError →
     errorClass e ≠ UpdatePreventedError →
     (update env document trigger s).1 = Rejected e
     ∧ logged (trace (update env document trigger s).2) = logged (trace s)
     ∧ diagnosticCollection (update env document trigger s).2
       = diagnosticCollection s
     ∧ codeActionCollection (update env document trigger s).2
       = codeActionCollection s)
  ∧ (∀ (codeAction : Ref) (parent : option CancellationToken) (s s1 : State)
       (object : CodeAction) (document : TextDocument)
       (diagnostic : Diagnostic) (token : CancellationToken) (e : JsError),
     heap s !! codeAction = Some object →
     resolvable object document diagnostic →
     registryBegin env document parent = Some token →
     resolveChain env document diagnostic codeAction token
       (resolveStarted document parent s)
     = (Rejected e, s1) →
     errorClass e ≠ CancellationError →
     errorClass e ≠ ConfigurationError →
     errorClass e ≠ PHPCSError →
     (resolve env codeAction parent s).1 = Rejected e
     ∧ logged (trace (resolve env codeAction parent s).2) = logged (trace s)
     ∧ heap (resolve env codeAction parent s).2 = heap s).
Proof.
  split.
  - intros document trigger token s s1 e Htoken Hchain Hc1 Hc2 Hc3 Hc4.
    pose proof (updateChain_logged document trigger token
      (updateStarted document token s)) as Hlogged.
    rewrite Hchain, updateStarted_logged in Hlogged. simpl in Hlogged.
    destruct (updateChain_rejected_collections _ _ _ _ _ _ Hchain Hc4)
      as [Hdiagnostics HcodeActions].
    rewrite (update_started _ _ _ _ Htoken).
    unfold updateSettled, catch. rewrite Hchain, updateCatch_run.
    destruct (errorClass e); try done.
    observe. by rewrite Hlogged, Hdiagnostics, HcodeActions.
  - intros codeAction parent s s1 object document diagnostic token e
      Hobject Hresolvable Htoken Hchain Hc1 Hc2 Hc3.
    pose proof (resolveChain_logged document diagnostic codeAction token
      (resolveStarted document parent s)) as Hlogged.
    rewrite Hchain in Hlogged. simpl in Hlogged.
    rewrite logged_app in Hlogged. simpl in Hlogged.
    rewrite app_nil_r in Hlogged.
    pose proof (resolveChain_rejected_heap _ _ _ _ _ _ _ Hchain) as Hheap.
    simpl in Hheap.
    rewrite (resolve_started _ _ _ _ _ _ _ Hobject Hresolvable Htoken).
    unfold resolveSettled, catch. rewrite Hchain, resolveCatch_run.
    by destruct (errorClass e).
Qed.
(** A chain of [update] that reaches the response of the worker has not
    touched the two collections. *)
Lemma updateFetch_fulfilled_collections (document : TextDocument)
    (trigger : LintAction.t) (token : CancellationToken) (s s1 : State)
    (response : Response ReportType.Diagnostic) :
  updateFetch env document trigger token s = (Fulfilled response, s1) →
  diagnosticCollection s1 = diagnosticCollection s
  ∧ codeActionCollection s1 = codeActionCollection s.
Proof.
  unfold updateFetch, configuration_get, updateRequest.
  run. destruct (configurationGet _ _ _) as [configuration | e']; run;
    [| done].
  destruct (decide (excluded document configuration)).
  { by rewrite checkExclude_excluded by done. }
  rewrite checkExclude_included by done. run.
  unfold checkLintAction, waitForAvailable, getWorkspaceFolderOrDefault,
    execute.
  destruct trigger; repeat case_decide; cases; by intros [= <- <-].
Qed.

(** A chain of [resolve] that reaches the response of the worker has not
    touched the code action. *)
Lemma resolveRequest_heap (document : TextDocument) (diagnostic : Diagnostic)
    (token : CancellationToken) (s : State) :
  heap (resolveRequest env document diagnostic token s).2 = heap s.
Proof.
  unfold resolveRequest, configuration_get, waitForAvailable,
    getWorkspaceFolderOrDefault, execute.
  by cases.
Qed.

(** Up to the response of the worker, the chain of [resolve] does not touch
    the code action collection. *)
Lemma resolveRequest_collection (document : TextDocument)
    (diagnostic : Diagnostic) (token : CancellationToken) (s : State) :
  codeActionCollection (resolveRequest env document diagnostic token s).2
  = codeActionCollection s.
Proof.
  unfold resolveRequest, configuration_get, waitForAvailable,
    getWorkspaceFolderOrDefault, execute.
  by cases.
Qed.

(** [buildDiagnosticCodeActions] builds one ignore-line quick fix for each
    diagnostic, in order. *)
Lemma buildDiagnosticCodeActions_ignoresLine (document : TextDocument)
    (diagnostics : list Diagnostic) :
  Forall2 (ignoresLine env document) diagnostics
    (buildDiagnosticCodeActions env document diagnostics).
Proof.
  induction diagnostics as [| diagnostic diagnostics IH]; constructor;
    [| exact IH].
  repeat split. by eexists.
Qed.

(** When its chain reaches the response of the worker, [update] ends with
    the [then] that takes the response. *)
Lemma update_fulfilled_run (document : TextDocument) (trigger : LintAction.t)
    (token : CancellationToken) (s s1 : State)
    (response : Response ReportType.Diagnostic) :
  registryBegin env document None = Some token →
  updateFetch env document trigger token (updateStarted document token s)
  = (Fulfilled response, s1) →
  update env document trigger s = updateResponse env document response s1.
Proof.
  intros Htoken Hfetch.
  rewrite (update_started _ _ _ _ Htoken).
  unfold updateSettled, catch, updateChain, mbind, Async_bind.
  rewrite Hfetch.
  unfold updateResponse, deleteCancellationToken, linterStatus_stop,
    clearDocument.
  by destruct (report response).
Qed.

(** When its chain reaches the response of the worker, [resolve] ends with
    the [then] that takes the response. *)
Lemma resolve_fulfilled_run (codeAction : Ref)
    (parent : option CancellationToken) (s s1 : State) (object : CodeAction)
    (document : TextDocument) (diagnostic : Diagnostic)
    (token : CancellationToken) (response : Response ReportType.CodeAction) :
  heap s !! codeAction = Some object →
  resolvable object document diagnostic →
  registryBegin env document parent = Some token →
  resolveRequest env document diagnostic token
    (resolveStarted document parent s)
  = (Fulfilled response, s1) →
  resolve env codeAction parent s
  = resolveResponse document codeAction response s1.
Proof.
  intros Hobject Hresolvable Htoken Hrequest.
  rewrite (resolve_started _ _ _ _ _ _ _ Hobject Hresolvable Htoken).
  unfold resolveSettled, catch, resolveChain, mbind, Async_bind.
  rewrite Hrequest.
  unfold resolveResponse, deleteCancellationToken, deref.
  by destruct (report response).
Qed.

(** Up to the response of the worker, the chain of [update] does not touch
    the code action objects. *)
Lemma updateFetch_heap (document : TextDocument) (trigger : LintAction.t)
    (token : CancellationToken) (s : State) :
  heap (updateFetch env document trigger token s).2 = heap s.
Proof.
  unfold updateFetch, configuration_get, updateRequest.
  run. destruct (configurationGet _ _ _) as [configuration | e]; run;
    [| done].
  destruct (decide (excluded document configuration)).
  { by rewrite checkExclude_excluded by done. }
  rewrite checkExclude_included by done. run.
  unfold checkLintAction, waitForAvailable, getWorkspaceFolderOrDefault,
    execute.
  destruct trigger; repeat case_decide; by cases.
Qed.

Lemma freshRefs_length (n : nat) (h : gmap Ref CodeAction) :
  length (freshRefs n h) = n.
Proof. apply length_fresh_list. Qed.

Lemma freshRefs_NoDup (n : nat) (h : gmap Ref CodeAction) :
  NoDup (freshRefs n h).
Proof. apply NoDup_fresh_list. Qed.

Lemma freshRefs_fresh (n : nat) (h : gmap Ref CodeAction) (r : Ref) :
  r ∈ freshRefs n h → h !! r = None.
Proof.
  intros Hin. apply not_elem_of_dom.
  by apply (fresh_list_is_fresh n (dom h)).
Qed.

(** The objects stored are found at their references. *)
Lemma storeAll_lookup_new (refs : list Ref) (objects : list CodeAction)
    (h : gmap Ref CodeAction) :
  NoDup refs → length refs = length objects →
  Forall2 (λ r object, storeAll refs objects h !! r = Some object)
    refs objects.
Proof.
  intros Hdistinct Hlength.
  apply Forall2_same_length_lookup_2; [done |].
  intros i r object Hr Hobject. unfold storeAll.
  apply lookup_union_Some_l, elem_of_list_to_map.
  - by rewrite fst_zip by lia.
  - apply list_elem_of_lookup. exists i.
    by apply lookup_zip_with_Some; eexists _, _.
Qed.

(** The other objects are as they were. *)
Lemma storeAll_lookup_old (refs : list Ref) (objects : list CodeAction)
    (h : gmap Ref CodeAction) (r : Ref) :
  r ∉ refs → storeAll refs objects h !! r = h !! r.
Proof.
  intros Hother. unfold storeAll.
  apply lookup_union_r, not_elem_of_list_to_map_1.
  intros Hin. apply Hother.
  apply list_elem_of_fmap in Hin as ([r' object] & -> & Hin).
  by apply elem_of_zip_l in Hin.
Qed.

(** The chain of [update] up to the response of the worker, when every
    collaborator resolves and nothing prevents the update. *)
Lemma updateFetch_run (document : TextDocument) (trigger : LintAction.t)
    (token : CancellationToken) (configuration : Configuration)
    (worker : Worker) (response : Response ReportType.Diagnostic)
    (s : State) :
  configurationGet env document (Some token) = Resolves configuration →
  ¬ excluded document configuration →
  ¬ mismatched trigger (lintAction configuration) →
  poolWaitForAvailable env (diagnosticKey document) token = Resolves worker →
  workerExecute env ReportType.Diagnostic worker
    (diagnosticRequest document configuration
       (workspaceFolderOrDefault env (uri document))) token
  = Resolves response →
  ∃ s1, updateFetch env document trigger token s = (Fulfilled response, s1).
Proof.
  intros Hconfiguration Hincluded Hmatched Hworker Hresponse.
  unfold updateFetch, configuration_get, updateRequest. run.
  rewrite Hconfiguration. run.
  rewrite checkExclude_included by done. run.
  rewrite checkLintAction_matched by done.
  unfold waitForAvailable, getWorkspaceFolderOrDefault, execute. run.
  rewrite Hworker. run. rewrite Hresponse. by eexists.
Qed.

(** The chain of [resolve] up to the response of the worker, when every
    collaborator resolves. *)
Lemma resolveRequest_run (document : TextDocument) (diagnostic : Diagnostic)
    (token : CancellationToken) (configuration0 configuration : Configuration)
    (worker : Worker) (response : Response ReportType.CodeAction)
    (s : State) :
  configurationGet env document (Some token) = Resolves configuration0 →
  poolWaitForAvailable env (resolveKey document diagnostic) token
  = Resolves worker →
  configurationGet env document None = Resolves configuration →
  workerExecute env ReportType.CodeAction worker
    (codeActionRequest document diagnostic configuration
       (workspaceFolderOrDefault env (uri document))) token
  = Resolves response →
  ∃ s1,
    resolveRequest env document diagnostic token s = (Fulfilled response, s1).
Proof.
  intros Hconfiguration0 Hworker Hconfiguration Hresponse.
  unfold resolveRequest, configuration_get, waitForAvailable,
    getWorkspaceFolderOrDefault, execute. run.
  rewrite Hconfiguration0. run. rewrite Hworker. run.
  rewrite Hconfiguration. run. rewrite Hresponse. by eexists.
Qed.

(** C1: when every collaborator of [update] resolves and nothing prevents
    the update, so that the request of the worker succeeds with a response:
    if the response has no report, the entries of the document are deleted
    from the diagnostic collection and from the code action collection; if
    it has one, the diagnostics of the document become those of the report,
    and its code actions become new objects: those of the report, followed
    by one ignore-line quick fix for each diagnostic.  When every
    collaborator of [resolve] resolves, [resolve] resolves with the code
    action it was given; if the response has a report, the edit of that
    code action is a workspace edit that holds the edits of the report, for
    the document, and nothing else; if it has none, the edit is what it
    was, unset if it was unset; no other field changes. *)
Theorem response_replaces_or_clears :
  (∀ (document : TextDocument) (trigger : LintAction.t)
     (token : CancellationToken) (configuration : Configuration)
     (worker : Worker) (s : State)
     (response : Response ReportType.Diagnostic),
     registryBegin env document None = Some token →
     configurationGet env document (Some token) = Resolves configuration →
     ¬ excluded document configuration →
     ¬ mismatched trigger (lintAction configuration) →
     poolWaitForAvailable env ("diagnostic:" +:+ fileName document) token
     = Resolves worker →
     workerExecute env ReportType.Diagnostic worker
       {| workingDirectory :=
            fsPath (workspaceFolderOrDefault env (uri document));
          documentPath := fsPath (uri document);
          documentContent := getText document;
          options := {| optExecutable := executable configuration;
                        optStandard := standard configuration |};
          data := tt : RequestData ReportType.Diagnostic |} token
     = Resolves response →
     (update env document trigger s).1 = Fulfilled tt
     ∧ match report response with
       | None =>
           diagnosticCollection (update env document trigger s).2
           = delete (collectionKey (uri document)) (diagnosticCollection s)
           ∧ codeActionCollection (update env document trigger s).2
             = delete (collectionKey (uri document)) (codeActionCollection s)
       | Some found =>
           diagnosticCollection (update env document trigger s).2
           = <[collectionKey (uri document) := reportDiagnostics found]>
               (diagnosticCollection s)
           ∧ (∃ stored ignores,
                codeActionCollection (update env document trigger s).2
                = <[collectionKey (uri document) := stored]>
                    (codeActionCollection s)
                ∧ Forall2 (λ r object,
                             heap (update env document trigger s).2 !! r
                             = Some object)
                    stored (reportCodeActions found ++ ignores)
                ∧ Forall2 (ignoresLine env document)
                    (reportDiagnostics found) ignores
                ∧ NoDup stored
                ∧ Forall (λ r, heap s !! r = None) stored)
       end)
  ∧ (∀ (codeAction : Ref) (parent : option CancellationToken) (s : State)
       (object : CodeAction) (document : TextDocument)
       (diagnostic : Diagnostic) (token : CancellationToken)
       (configuration0 configuration : Configuration) (worker : Worker)
       (response : Response ReportType.CodeAction),
     heap s !! codeAction = Some object →
     resolvable object document diagnostic →
     registryBegin env document parent = Some token →
     configurationGet env document (Some token) = Resolves configuration0 →
     poolWaitForAvailable env
       ("resolve:" +:+ fileName document +:+ ":" +:+ code diagnostic
        +:+ ":" +:+ Number_toString (line (start (range diagnostic)))
        +:+ ":" +:+ Number_toString (character (start (range diagnostic))))
       token
     = Resolves worker →
     configurationGet env document None = Resolves configuration →
     workerExecute env ReportType.CodeAction worker
       {| workingDirectory :=
            fsPath (workspaceFolderOrDefault env (uri document));
          documentPath := fsPath (uri document);
          documentContent := getText document;
          options := {| optExecutable := executable configuration;
                        optStandard := standard configuration |};
          data :=
            {| dataCode := code diagnostic;
               dataLine := line (start (range diagnostic));
               dataCharacter := character (start (range diagnostic)) |}
            : RequestData ReportType.CodeAction |} token
     = Resolves response →
     (resolve env codeAction parent s).1 = Fulfilled codeAction
     ∧ ∃ resolved,
         heap (resolve env codeAction parent s).2 !! codeAction
         = Some resolved
         ∧ edit resolved
           = match report response with
             | Some found =>
                 Some ((λ textEdit, (uri document, textEdit))
                       <$> edits found)
             | None => edit object
             end
         ∧ title resolved = title object
         ∧ kind resolved = kind object
         ∧ diagnostics resolved = diagnostics object
         ∧ actionCommand resolved = actionCommand object
         ∧ codeActionDocument resolved = codeActionDocument object).
Proof.
  split.
  - intros document trigger token configuration worker s response Htoken
      Hconfiguration Hincluded Hmatched Hworker Hresponse.
    destruct (updateFetch_run document trigger token configuration worker
      response (updateStarted document token s) Hconfiguration Hincluded
      Hmatched Hworker Hresponse) as [s1 Hfetch].
    destruct (updateFetch_fulfilled_collections _ _ _ _ _ _ Hfetch)
      as [Hdiagnostics HcodeActions].
    pose proof (updateFetch_heap document trigger token
      (updateStarted document token s)) as Hheap.
    rewrite Hfetch in Hheap.
    simpl in Hdiagnostics, HcodeActions, Hheap.
    rewrite (update_fulfilled_run _ _ _ _ _ _ Htoken Hfetch).
    unfold updateResponse, deleteCancellationToken, linterStatus_stop,
      clearDocument.
    destruct (report response) as [found |]; run.
    + split; [done |]. rewrite Hdiagnostics, HcodeActions, Hheap.
      split; [done |].
      eexists _, _. split; [done |].
      split; [| split; [| split]].
      * apply storeAll_lookup_new;
          [apply freshRefs_NoDup | apply freshRefs_length].
      * apply buildDiagnosticCodeActions_ignoresLine.
      * apply freshRefs_NoDup.
      * apply Forall_forall. intros r. apply freshRefs_fresh.
    + by rewrite Hdiagnostics, HcodeActions.
  - intros codeAction parent s object document diagnostic token
      configuration0 configuration worker response Hobject Hresolvable
      Htoken Hconfiguration0 Hworker Hconfiguration Hresponse.
    destruct (resolveRequest_run document diagnostic token configuration0
      configuration worker response (resolveStarted document parent s)
      Hconfiguration0 Hworker Hconfiguration Hresponse) as [s1 Hrequest].
    pose proof (resolveRequest_heap document diagnostic token
      (resolveStarted document parent s)) as Hheap.
    rewrite Hrequest in Hheap. simpl in Hheap.
    rewrite (resolve_fulfilled_run _ _ _ _ _ _ _ _ _ Hobject Hresolvable
      Htoken Hrequest).
    unfold resolveResponse, deleteCancellationToken, deref.
    destruct (report response) as [found |]; run.
    + split; [done |]. rewrite lookup_insert_eq, Hheap.
      rewrite (lookup_total_correct _ _ _ Hobject).
      by eexists.
    + rewrite Hheap, Hobject. split; [done |]. by eexists.
Qed.

(** Up to the response of the worker, the chain of [update] does not call
    [deleteCancellationToken]. *)
Lemma updateFetch_deletions (document : TextDocument) (trigger : LintAction.t)
    (token : CancellationToken) (s : State) :
  deletions (trace (updateFetch env document trigger token s).2)
  = deletions (trace s).
Proof.
  unfold updateFetch, configuration_get, updateRequest.
  run. destruct (configurationGet _ _ _) as [configuration | e]; run;
    [| by observe].
  destruct (decide (excluded document configuration)).
  { rewrite checkExclude_excluded by done. by observe. }
  rewrite checkExclude_included by done. run.
  unfold checkLintAction, waitForAvailable, getWorkspaceFolderOrDefault,
    execute.
  destruct trigger; repeat case_decide; cases; by observe.
Qed.

(** Up to the response of the worker, the chain of [resolve] does not call
    [deleteCancellationToken]. *)
Lemma resolveRequest_deletions (document : TextDocument)
    (diagnostic : Diagnostic) (token : CancellationToken) (s : State) :
  deletions (trace (resolveRequest env document diagnostic token s).2)
  = deletions (trace s).
Proof.
  unfold resolveRequest, configuration_get, waitForAvailable,
    getWorkspaceFolderOrDefault, execute.
  cases; by observe.
Qed.

Lemma updateStarted_deletions (document : TextDocument)
    (token : CancellationToken) (s : State) :
  deletions (trace (updateStarted document token s)) = deletions (trace s).
Proof. by observe. Qed.

Lemma resolveStarted_deletions (document : TextDocument)
    (parent : option CancellationToken) (s : State) :
  deletions (trace (resolveStarted document parent s)) = deletions (trace s).
Proof. by observe. Qed.

(** C2, as the dispatchers have it: a dispatcher that has obtained a token
    calls [deleteCancellationToken] for the document once, when its chain
    reaches the response of the worker, and does not call it when the chain
    rejects before that; the [catch] handlers do not call it. *)
Theorem token_deleted_with_response :
  (∀ (document : TextDocument) (trigger : LintAction.t)
     (token : CancellationToken) (s : State),
     registryBegin env document None = Some token →
     deletions (trace (update env document trigger s).2)
     = deletions (trace s)
       ++ match (updateFetch env document trigger token
                   (updateStarted document token s)).1 with
          | Fulfilled _ => [uri document]
          | Rejected _ => []
          end)
  ∧ (∀ (codeAction : Ref) (parent : option CancellationToken) (s : State)
       (object : CodeAction) (document : TextDocument)
       (diagnostic : Diagnostic) (token : CancellationToken),
     heap s !! codeAction = Some object →
     resolvable object document diagnostic →
     registryBegin env document parent = Some token →
     deletions (trace (resolve env codeAction parent s).2)
     = deletions (trace s)
       ++ match (resolveRequest env document diagnostic token
                   (resolveStarted document parent s)).1 with
          | Fulfilled _ => [uri document]
          | Rejected _ => []
          end).
Proof.
  split.
  - intros document trigger token s Htoken.
    pose proof (updateFetch_deletions document trigger token
      (updateStarted document token s)) as Hfetched.
    rewrite updateStarted_deletions in Hfetched.
    destruct (updateFetch _ _ _ _ _) as [[response | e] s1] eqn:Hfetch;
      simpl in *.
    + rewrite (update_fulfilled_run _ _ _ _ _ _ Htoken Hfetch).
      unfold updateResponse, deleteCancellationToken, linterStatus_stop,
        clearDocument.
      destruct (report response); run; observe; by rewrite Hfetched.
    + rewrite (update_started _ _ _ _ Htoken).
      unfold updateSettled, catch, updateChain, mbind, Async_bind.
      rewrite Hfetch, updateCatch_run.
      destruct (errorClass e); observe; by rewrite Hfetched.
  - intros codeAction parent s object document diagnostic token Hobject
      Hresolvable Htoken.
    pose proof (resolveRequest_deletions document diagnostic token
      (resolveStarted document parent s)) as Hfetched.
    rewrite resolveStarted_deletions in Hfetched.
    destruct (resolveRequest _ _ _ _ _) as [[response | e] s1] eqn:Hrequest;
      simpl in *.
    + rewrite (resolve_fulfilled_run _ _ _ _ _ _ _ _ _ Hobject Hresolvable
        Htoken Hrequest).
      unfold resolveResponse, deleteCancellationToken, deref.
      destruct (report response); run; observe; by rewrite Hfetched.
    + rewrite (resolve_started _ _ _ _ _ _ _ Hobject Hresolvable Htoken).
      unfold resolveSettled, catch, resolveChain, mbind, Async_bind.
      rewrite Hrequest, resolveCatch_run.
      destruct (errorClass e); observe; by rewrite Hfetched.
Qed.

(** Every request [update] makes to the pool has the key of the document. *)
Lemma update_poolRequests (document : TextDocument) (trigger : LintAction.t)
    (s : State) :
  poolRequests (trace (update env document trigger s).2) = poolRequests (trace s)
  ∨ poolRequests (trace (update env document trigger s).2)
    = poolRequests (trace s) ++ [diagnosticKey document].
Proof.
  unfold update, createCancellationToken. run.
  destruct (registryBegin _ _ _) as [token |]; run; [| left; by observe].
  unfold linterStatus_start, updateSettled, updateChain, updateFetch,
    configuration_get, updateRequest.
  run. destruct (configurationGet _ _ _) as [configuration | e]; run.
  2: { unfold updateCatch, linterStatus_stop, logger_error.
       left. cases; by observe. }
  destruct (decide (excluded document configuration)).
  { rewrite checkExclude_excluded by done. left. by observe. }
  rewrite checkExclude_included by done. run.
  unfold checkLintAction, waitForAvailable, getWorkspaceFolderOrDefault,
    execute, updateResponse, updateCatch, clearDocument,
    deleteCancellationToken, linterStatus_stop, logger_error.
  destruct trigger; repeat case_decide; cases; observe; auto.
Qed.

(** Every request [resolve] makes to the pool has the key of the document
    and the diagnostic. *)
Lemma resolve_poolRequests (codeAction : Ref)
    (parent : option CancellationToken) (s : State) (object : CodeAction)
    (document : TextDocument) (diagnostic : Diagnostic) :
  heap s !! codeAction = Some object →
  resolvable object document diagnostic →
  poolRequests (trace (resolve env codeAction parent s).2)
  = poolRequests (trace s)
  ∨ poolRequests (trace (resolve env codeAction parent s).2)
    = poolRequests (trace s) ++ [resolveKey document diagnostic].
Proof.
  intros Hobject [Hdocument Hdiagnostics].
  unfold resolve, deref, createCancellationToken. run.
  rewrite (lookup_total_correct _ _ _ Hobject), Hdocument, Hdiagnostics. run.
  destruct (registryBegin _ _ _) as [token |]; run; [| left; by observe].
  unfold resolveSettled, resolveChain, resolveRequest, configuration_get,
    waitForAvailable, getWorkspaceFolderOrDefault, execute, resolveResponse,
    resolveCatch, deleteCancellationToken, logger_error, deref.
  cases; observe; auto.
Qed.

(** Once it has the configuration, [resolve] asks the pool for a worker. *)
Lemma resolve_requests_pool (codeAction : Ref)
    (parent : option CancellationToken) (s : State) (object : CodeAction)
    (document : TextDocument) (diagnostic : Diagnostic)
    (token : CancellationToken) (configuration : Configuration) :
  heap s !! codeAction = Some object →
  resolvable object document diagnostic →
  registryBegin env document parent = Some token →
  configurationGet env document (Some token) = Resolves configuration →
  poolRequests (trace (resolve env codeAction parent s).2)
  = poolRequests (trace s) ++ [resolveKey document diagnostic].
Proof.
  intros Hobject Hresolvable Htoken Hconfiguration.
  rewrite (resolve_started _ _ _ _ _ _ _ Hobject Hresolvable Htoken).
  unfold resolveSettled, resolveChain, resolveRequest, configuration_get.
  run. rewrite Hconfiguration.
  unfold waitForAvailable, getWorkspaceFolderOrDefault, execute,
    resolveResponse, resolveCatch, deleteCancellationToken, logger_error,
    deref.
  cases; by observe.
Qed.

(** The key of a resolution, spelled out. *)
Lemma resolveKey_spelled (document : TextDocument) (diagnostic : Diagnostic) :
  resolveKey document diagnostic
  = "resolve:" +:+ fileName document +:+ ":" +:+ code diagnostic +:+ ":"
    +:+ Number_toString (line (start (range diagnostic))) +:+ ":"
    +:+ Number_toString (character (start (range diagnostic))).
Proof. reflexivity. Qed.
End Properties.

(** C6: the key [update] passes to [waitForAvailable] is ["diagnostic:"]
    followed by the file name of the document, and the key [resolve]
    passes is ["resolve"], the file name, the code of the diagnostic, its
    start line and its start character, joined by [":"]; [resolve] passes
    it as soon as it has the configuration; and two resolutions of the same
    diagnostic of the same document pass the same key. *)
Theorem pool_keys :
  (∀ (env : Env) (document : TextDocument) (trigger : LintAction.t)
     (s : State),
     poolRequests (trace (update env document trigger s).2)
     = poolRequests (trace s)
     ∨ poolRequests (trace (update env document trigger s).2)
       = poolRequests (trace s) ++ ["diagnostic:" +:+ fileName document])
  ∧ (∀ (env : Env) (codeAction : Ref) (parent : option CancellationToken)
       (s : State) (object : CodeAction) (document : TextDocument)
       (diagnostic : Diagnostic),
     heap s !! codeAction = Some object →
     resolvable object document diagnostic →
     (poolRequests (trace (resolve env codeAction parent s).2)
      = poolRequests (trace s)
      ∨ poolRequests (trace (resolve env codeAction parent s).2)
        = poolRequests (trace s)
          ++ ["resolve:" +:+ fileName document +:+ ":" +:+ code diagnostic
              +:+ ":" +:+ Number_toString (line (start (range diagnostic)))
              +:+ ":"
              +:+ Number_toString (character (start (range diagnostic)))])
     ∧ ∀ (token : CancellationToken) (configuration : Configuration),
         registryBegin env document parent = Some token →
         configurationGet env document (Some token) = Resolves configuration →
         poolRequests (trace (resolve env codeAction parent s).2)
         = poolRequests (trace s)
           ++ ["resolve:" +:+ fileName document +:+ ":" +:+ code diagnostic
               +:+ ":" +:+ Number_toString (line (start (range diagnostic)))
               +:+ ":"
               +:+ Number_toString (character (start (range diagnostic)))])
  ∧ (∀ (env1 env2 : Env) (codeAction1 codeAction2 : Ref)
       (parent1 parent2 : option CancellationToken) (s1 s2 : State)
       (object1 object2 : CodeAction) (document : TextDocument)
       (diagnostic : Diagnostic) (key1 key2 : string),
     heap s1 !! codeAction1 = Some object1 →
     resolvable object1 document diagnostic →
     heap s2 !! codeAction2 = Some object2 →
     resolvable object2 document diagnostic →
     poolRequests (trace (resolve env1 codeAction1 parent1 s1).2)
     = poolRequests (trace s1) ++ [key1] →
     poolRequests (trace (resolve env2 codeAction2 parent2 s2).2)
     = poolRequests (trace s2) ++ [key2] →
     key1 = key2).
Proof.
  assert (∀ (A : Type) (l : list A) (x : A), l ≠ l ++ [x]) as Hgrows.
  { intros A l x Heq. apply (f_equal length) in Heq.
    rewrite length_app in Heq. simpl in Heq. lia. }
  split; [| split].
  - intros env document trigger s. apply update_poolRequests.
  - intros env codeAction parent s object document diagnostic Hobject
      Hresolvable.
    rewrite <- resolveKey_spelled. split.
    + by apply (resolve_poolRequests _ _ _ _ object).
    + intros token configuration Htoken Hconfiguration.
      by apply (resolve_requests_pool _ _ _ _ object _ _ token configuration).
  - intros env1 env2 codeAction1 codeAction2 parent1 parent2 s1 s2 object1
      object2 document diagnostic key1 key2 Hobject1 Hresolvable1 Hobject2
      Hresolvable2 Hrun1 Hrun2.
    destruct (resolve_poolRequests env1 codeAction1 parent1 s1 object1
      document diagnostic Hobject1 Hresolvable1) as [Hnone | Hone];
      rewrite Hrun1 in *; [by destruct (Hgrows _ _ _ (eq_sym Hnone)) |].
    destruct (resolve_poolRequests env2 codeAction2 parent2 s2 object2
      document diagnostic Hobject2 Hresolvable2) as [Hnone | Htwo];
      rewrite Hrun2 in *; [by destruct (Hgrows _ _ _ (eq_sym Hnone)) |].
    apply app_inv_head in Hone, Htwo. congruence.
Qed.

(** ** The properties on the sample inputs *)

Lemma excluded_document_never_reaches_pool_witness :
  (update (Sample.env LintAction.Change) Sample.vendorDoc LintAction.Change
     Sample.s0).1 = Fulfilled tt
  ∧ poolRequests
      (trace (update (Sample.env LintAction.Change) Sample.vendorDoc
                LintAction.Change Sample.s0).2) = [].
Proof.
  destruct (excluded_document_never_reaches_pool (Sample.env LintAction.Change)
    Sample.vendorDoc LintAction.Change 1 (Sample.config LintAction.Change)
    Sample.s0) as (_ & Hsettled & _ & Hpool).
  - reflexivity.
  - reflexivity.
  - left. reflexivity.
  - split; [exact Hsettled | exact Hpool].
Defined.

Lemma excluded_document_is_cleared_witness :
  diagnosticCollection
    (update (Sample.env LintAction.Change) Sample.vendorDoc LintAction.Change
       Sample.s0).2 !! "/w/vendor/lib.php" = None
  ∧ codeActionCollection
      (update (Sample.env LintAction.Change) Sample.vendorDoc
         LintAction.Change Sample.s0).2 !! "/w/vendor/lib.php" = None.
Proof.
  destruct (excluded_document_is_cleared (Sample.env LintAction.Change)
    Sample.vendorDoc LintAction.Change 1 (Sample.config LintAction.Change)
    Sample.s0) as (_ & _ & _ & Hdiagnostics & HcodeActions).
  - reflexivity.
  - reflexivity.
  - left. reflexivity.
  - split; [exact Hdiagnostics | exact HcodeActions].
Defined.

Lemma trigger_mode_gates_update_witness :
  poolRequests
    (trace (update (Sample.env LintAction.Save) Sample.doc LintAction.Change
              Sample.s0).2) = []
  ∧ poolRequests
      (trace (update (Sample.env LintAction.Change) Sample.doc
                (LintAction.Other "Force") Sample.s0).2)
    = ["diagnostic:/w/app/User.php"].
Proof.
  split.
  - apply (trigger_mode_gates_update (Sample.env LintAction.Save) Sample.doc
      LintAction.Change 1 (Sample.config LintAction.Save) Sample.s0 eq_refl
      eq_refl).
    left. split; reflexivity.
  - apply (trigger_mode_gates_update (Sample.env LintAction.Change) Sample.doc
      (LintAction.Other "Force") 1 (Sample.config LintAction.Change) Sample.s0
      eq_refl eq_refl).
    + intros [[Htrigger _] | [Htrigger _]]; discriminate Htrigger.
    + intros Hexcluded. inversion Hexcluded as [? ? Hhit | ? ? Hlater].
      * discriminate Hhit.
      * inversion Hlater.
Defined.

Lemma null_token_fails_fast_witness :
  update Sample.closedEnv Sample.doc LintAction.Change Sample.s0
  = (Fulfilled tt,
     record (EvCreateCancellationToken (uri Sample.doc) None) Sample.s0)
  ∧ resolve Sample.closedEnv 0 None Sample.s0
    = (Fulfilled 0,
       record (EvCreateCancellationToken (uri Sample.doc) None) Sample.s0).
Proof.
  split.
  - apply (proj1 (null_token_fails_fast Sample.closedEnv) Sample.doc
      LintAction.Change Sample.s0 eq_refl).
  - apply (proj2 (null_token_fails_fast Sample.closedEnv) 0 None Sample.s0
      Sample.action Sample.doc Sample.diag eq_refl (conj eq_refl eq_refl)
      eq_refl).
Defined.

Lemma invalid_code_action_resolves_unchanged_witness :
  resolve (Sample.env LintAction.Change) 1 None Sample.s0
  = (Fulfilled 1, Sample.s0).
Proof.
  apply (invalid_code_action_resolves_unchanged (Sample.env LintAction.Change)
    1 None Sample.s0 Sample.strayAction eq_refl).
  left. reflexivity.
Defined.

Lemma catch_absorbs_known_errors_witness :
  ((update (Sample.failingEnv Sample.phpcsError) Sample.doc LintAction.Change
      Sample.s0).1 = Fulfilled tt
   ∧ logged
       (trace (update (Sample.failingEnv Sample.phpcsError) Sample.doc
                 LintAction.Change Sample.s0).2) = [Sample.phpcsError])
  ∧ ((resolve (Sample.failingEnv Sample.cancelled) 0 None Sample.s0).1
     = Fulfilled 0
     ∧ logged
         (trace (resolve (Sample.failingEnv Sample.cancelled) 0 None
                   Sample.s0).2) = []
     ∧ heap (resolve (Sample.failingEnv Sample.cancelled) 0 None Sample.s0).2
         !! 0 = Some Sample.action).
Proof.
  split.
  - apply (proj1 (catch_absorbs_known_errors
      (Sample.failingEnv Sample.phpcsError)) Sample.doc LintAction.Change 1
      Sample.s0 _ Sample.phpcsError eq_refl eq_refl).
    right. reflexivity.
  - destruct (proj2 (catch_absorbs_known_errors
      (Sample.failingEnv Sample.cancelled)) 0 None Sample.s0 _ Sample.action
      Sample.doc Sample.diag 1 Sample.cancelled eq_refl
      (conj eq_refl eq_refl) eq_refl eq_refl) as [Hcancelled _].
    destruct (Hcancelled eq_refl) as (Hsettled & Hlogged & Hheap).
    split; [by rewrite Hsettled | split; [exact Hlogged | exact Hheap]].
Defined.

Lemma catch_rethrows_unknown_errors_witness :
  (update (Sample.failingEnv Sample.typeError) Sample.doc LintAction.Change
     Sample.s0).1 = Rejected Sample.typeError
  ∧ (resolve (Sample.failingEnv Sample.typeError) 0 None Sample.s0).1
    = Rejected Sample.typeError.
Proof.
  split.
  - apply (proj1 (catch_rethrows_unknown_errors
      (Sample.failingEnv Sample.typeError)) Sample.doc LintAction.Change 1
      Sample.s0 _ Sample.typeError eq_refl eq_refl); discriminate.
  - apply (proj2 (catch_rethrows_unknown_errors
      (Sample.failingEnv Sample.typeError)) 0 None Sample.s0 _ Sample.action
      Sample.doc Sample.diag 1 Sample.typeError eq_refl
      (conj eq_refl eq_refl) eq_refl eq_refl); discriminate.
Defined.

Lemma response_replaces_or_clears_witness :
  (diagnosticCollection Sample.s0 !! "/w/app/User.php" = Some [Sample.diag]
   ∧ diagnosticCollection
       (update Sample2.env Sample.doc LintAction.Change Sample.s0).2
       !! "/w/app/User.php" = Some [Sample2.diagAgain]
   ∧ ∃ stored ignores,
       codeActionCollection
         (update Sample2.env Sample.doc LintAction.Change Sample.s0).2
         !! "/w/app/User.php" = Some stored
       ∧ Forall2 (λ r object,
                    heap (update Sample2.env Sample.doc LintAction.Change
                            Sample.s0).2 !! r = Some object)
           stored (Sample2.fixAction :: ignores)
       ∧ Forall2 (ignoresLine Sample2.env Sample.doc) [Sample2.diagAgain]
           ignores)
  ∧ (codeActionCollection Sample.s0 !! "/w/app/User.php" = Some [0]
     ∧ codeActionCollection
         (update Sample.quietEnv Sample.doc (LintAction.Other "Force")
            Sample.s0).2 !! "/w/app/User.php" = None)
  ∧ (edit Sample.action = None
     ∧ ∃ resolved,
         heap (resolve Sample2.env 0 None Sample.s0).2 !! 0 = Some resolved
         ∧ edit resolved
           = Some [(uri Sample.doc, Sample2.wrapEdit);
                   (uri Sample.doc, Sample2.semicolonEdit)]).
Proof.
  assert (¬ excluded Sample.doc (Sample.config LintAction.Change))
    as Hincluded.
  { intros Hexcluded. inversion Hexcluded as [? ? Hhit | ? ? Hlater].
    - discriminate Hhit.
    - inversion Hlater. }
  split; [| split].
  - destruct (proj1 (response_replaces_or_clears Sample2.env) Sample.doc
      LintAction.Change 1 (Sample.config LintAction.Change) 7 Sample.s0
      {| report := Some (Sample2.reportFor ReportType.Diagnostic) |}
      eq_refl eq_refl Hincluded) as [_ [Hdiagnostics Hstored]];
      [| reflexivity | reflexivity |].
    { intros [[_ Hconfigured] | [Htrigger _]]; discriminate. }
    destruct Hstored as (stored & ignores & Hcollection & Hobjects & Hignores
      & _).
    split; [reflexivity |]. split.
    + rewrite Hdiagnostics. apply lookup_insert_eq.
    + exists stored, ignores. rewrite Hcollection.
      split; [apply lookup_insert_eq | split; [exact Hobjects | exact Hignores]].
  - destruct (proj1 (response_replaces_or_clears Sample.quietEnv) Sample.doc
      (LintAction.Other "Force") 1 (Sample.config LintAction.Change) 7
      Sample.s0 {| report := None |} eq_refl eq_refl Hincluded)
      as [_ [_ HcodeActions]]; [| reflexivity | reflexivity |].
    { intros [[Htrigger _] | [Htrigger _]]; discriminate. }
    split; [reflexivity |].
    rewrite HcodeActions. apply lookup_delete_eq.
  - split; [reflexivity |].
    destruct (proj2 (response_replaces_or_clears Sample2.env) 0 None
      Sample.s0 Sample.action Sample.doc Sample.diag 1
      (Sample.config LintAction.Change) (Sample.config LintAction.Change) 7
      {| report := Some (Sample2.reportFor ReportType.CodeAction) |}
      eq_refl (conj eq_refl eq_refl) eq_refl eq_refl eq_refl eq_refl eq_refl)
      as [_ (resolved & Hresolved & Hedit & _)].
    exists resolved. split; [exact Hresolved | exact Hedit].
Defined.

(** C2 fails as stated: with a token in hand, an update whose worker fails,
    and a resolution that is cancelled, both recover in their [catch] and
    end without any call to [deleteCancellationToken]. *)
Lemma token_kept_on_failure :
  (registryBegin (Sample.failingEnv Sample.phpcsError) Sample.doc None = Some 1
   ∧ (update (Sample.failingEnv Sample.phpcsError) Sample.doc
        LintAction.Change Sample.s0).1 = Fulfilled tt
   ∧ deletions
       (trace (update (Sample.failingEnv Sample.phpcsError) Sample.doc
                 LintAction.Change Sample.s0).2) = [])
  ∧ (registryBegin (Sample.failingEnv Sample.cancelled) Sample.doc None
     = Some 1
     ∧ (resolve (Sample.failingEnv Sample.cancelled) 0 None Sample.s0).1
       = Fulfilled 0
     ∧ deletions
         (trace (resolve (Sample.failingEnv Sample.cancelled) 0 None
                   Sample.s0).2) = []).
Proof. repeat split. Qed.

Lemma token_deleted_with_response_witness :
  deletions
    (trace (update (Sample.env LintAction.Change) Sample.doc LintAction.Change
              Sample.s0).2) = [uri Sample.doc]
  ∧ deletions
      (trace (update (Sample.failingEnv Sample.phpcsError) Sample.doc
                LintAction.Change Sample.s0).2) = []
  ∧ deletions
      (trace (resolve (Sample.env LintAction.Change) 0 None Sample.s0).2)
    = [uri Sample.doc]
  ∧ deletions
      (trace (resolve (Sample.failingEnv Sample.cancelled) 0 None
                Sample.s0).2) = [].
Proof.
  split; [| split; [| split]].
  - apply (proj1 (token_deleted_with_response (Sample.env LintAction.Change))
      Sample.doc LintAction.Change 1 Sample.s0 eq_refl).
  - apply (proj1 (token_deleted_with_response
      (Sample.failingEnv Sample.phpcsError)) Sample.doc LintAction.Change 1
      Sample.s0 eq_refl).
  - apply (proj2 (token_deleted_with_response (Sample.env LintAction.Change))
      0 None Sample.s0 Sample.action Sample.doc Sample.diag 1 eq_refl
      (conj eq_refl eq_refl) eq_refl).
  - apply (proj2 (token_deleted_with_response
      (Sample.failingEnv Sample.cancelled)) 0 None Sample.s0 Sample.action
      Sample.doc Sample.diag 1 eq_refl (conj eq_refl eq_refl) eq_refl).
Defined.

Lemma pool_keys_witness :
  poolRequests
    (trace (update (Sample.env LintAction.Change) Sample.doc LintAction.Change
              Sample.s0).2) = ["diagnostic:/w/app/User.php"]
  ∧ poolRequests
      (trace (resolve (Sample.env LintAction.Change) 0 None Sample.s0).2)
    = ["resolve:/w/app/User.php:Laravel.Security.Echo:12:4"].
Proof.
  split.
  - destruct (proj1 pool_keys (Sample.env LintAction.Change) Sample.doc
      LintAction.Change Sample.s0) as [Hnone | Hone].
    + discriminate Hnone.
    + exact Hone.
  - apply (proj2 (proj1 (proj2 pool_keys) (Sample.env LintAction.Change) 0
      None Sample.s0 Sample.action Sample.doc Sample.diag eq_refl
      (conj eq_refl eq_refl)) 1 (Sample.config LintAction.Change) eq_refl
      eq_refl).
Defined.

(** ** Further properties of the dispatchers *)

(** Splits the chain of [update] into all the ways it can run. *)
Ltac update_chain_paths document trigger :=
  unfold linterStatus_start, updateSettled, updateChain, updateFetch,
    configuration_get, updateRequest; run;
  destruct (configurationGet _ _ _) as [?configuration | ?e] eqn:?; run;
  [ match goal with
    | c : Configuration |- _ => destruct (decide (excluded document c))
    end;
    [ rewrite !checkExclude_excluded by done; run
    | rewrite !checkExclude_included by done; run;
      unfold checkLintAction, waitForAvailable,
        getWorkspaceFolderOrDefault, execute, updateResponse, updateCatch,
        clearDocument, deleteCancellationToken, linterStatus_stop,
        logger_error;
      destruct trigger; repeat case_decide; cases ]
  | unfold updateCatch, linterStatus_stop, logger_error; cases ].

(** Splits [update] into all the ways it can run. *)
Ltac update_paths document trigger :=
  unfold update, createCancellationToken; run;
  destruct (registryBegin _ _ _) as [?token |] eqn:?; run;
  [ update_chain_paths document trigger | ].

(** Reads any of the observations of the trace of the state reached. *)
Ltac read :=
  unfold linterStarts, linterStops, configurationReads, configurationTokens,
    poolRequests, logged, deletions, diagnosticExecutions,
    codeActionExecutions;
  simpl; rewrite ?omap_app; simpl; rewrite ?app_nil_r.

(** Splits [resolve] into all the ways it can run. *)
Ltac resolve_paths :=
  unfold resolve, deref, createCancellationToken; run;
  repeat match goal with
  | |- context [match document ?o with Some _ => _ | None => _ end] =>
      destruct (document o) as [?target |] eqn:?; run
  | |- context [match diagnostics ?o with Some _ => _ | None => _ end] =>
      destruct (diagnostics o) as [[| ?diagnostic [| ? ?]] |] eqn:?; run
  end;
  try (destruct (registryBegin _ _ _) as [?token |] eqn:?; run;
       [ unfold resolveSettled, resolveChain, resolveRequest,
           configuration_get, waitForAvailable, getWorkspaceFolderOrDefault,
           execute, resolveResponse, resolveCatch, deleteCancellationToken,
           logger_error, deref; cases
       | ]).

(** X1: The promise chain of [update] rejects only with an error of none of the
    classes its [catch] knows; the promise of [resolve] fulfils only with
    the code action it was given, and rejects only with an error that is
    neither a cancellation, nor a configuration error, nor a tool error. *)
Theorem dispatchers_settle (env : Env) :
  (∀ (document : TextDocument) (trigger : LintAction.t) (s : State)
     (e : JsError),
     (update env document trigger s).1 = Rejected e →
     ∃ name, errorClass e = OtherError name)
  ∧ (∀ (codeAction : Ref) (parent : option CancellationToken) (s : State),
     match (resolve env codeAction parent s).1 with
     | Fulfilled resolved => resolved = codeAction
     | Rejected e =>
         errorClass e ≠ CancellationError
         ∧ errorClass e ≠ ConfigurationError
         ∧ errorClass e ≠ PHPCSError
     end).
Proof.
  split.
  - intros document trigger s e.
    update_paths document trigger; try done; intros [= <-]; eauto.
  - intros codeAction parent s.
    resolve_paths; try done; by repeat split; congruence.
Qed.

(** X2: Once [update] has its token it tells the linter status that linting
    started, once; and it tells it that linting stopped exactly once on every
    way out but one: when its chain rejects with a [CancellationError], the
    [catch] leaves the stop to the callback registered on the token. *)
Theorem linter_status_balanced (env : Env) (document : TextDocument)
    (trigger : LintAction.t) (token : CancellationToken) (s : State) :
  registryBegin env document None = Some token →
  linterStarts (trace (update env document trigger s).2)
  = linterStarts (trace s) ++ [uri document]
  ∧ linterStops (trace (update env document trigger s).2)
    = linterStops (trace s)
      ++ match (updateChain env document trigger token
                  (updateStarted document token s)).1 with
         | Fulfilled _ => [uri document]
         | Rejected e =>
             if instanceof e CancellationError then [] else [uri document]
         end.
Proof.
  intros Htoken. rewrite (update_started _ _ _ _ _ Htoken).
  unfold updateStarted.
  update_chain_paths document trigger; by read.
Qed.

(** X3: Whatever the collaborators reply, [update] changes the entries of no
    other document in the diagnostic collection and in the code action
    collection, and it changes no code action object: every reference
    leads to what it led to before, but for the references of the new
    objects, which the entry of the document then holds. *)
Theorem update_touches_own_document_only (env : Env)
    (document : TextDocument) (trigger : LintAction.t) (s : State)
    (other : string) :
  other ≠ collectionKey (uri document) →
  diagnosticCollection (update env document trigger s).2 !! other
  = diagnosticCollection s !! other
  ∧ codeActionCollection (update env document trigger s).2 !! other
    = codeActionCollection s !! other
  ∧ ∀ ref : Ref,
      heap (update env document trigger s).2 !! ref = heap s !! ref
      ∨ (heap s !! ref = None
         ∧ ∃ stored,
             codeActionCollection (update env document trigger s).2
               !! collectionKey (uri document) = Some stored
             ∧ ref ∈ stored).
Proof.
  intros Hother.
  update_paths document trigger; simpl;
    (split; [by rewrite ?lookup_delete_ne, ?lookup_insert_ne |]);
    (split; [by rewrite ?lookup_delete_ne, ?lookup_insert_ne |]);
    intros ref; try (by left).
  all: match goal with
       | |- context [freshRefs ?n ?h] =>
           destruct (decide (ref ∈ freshRefs n h)) as [Hnew | Hold]
       end.
  all: try (left; by apply storeAll_lookup_old).
  all: right; split; [by eapply freshRefs_fresh |].
  all: eexists; split; [apply lookup_insert_eq | done].
Qed.

(** X4: Whatever the collaborators reply, [resolve] leaves the diagnostic
    collection as it was, adds, removes or replaces no object in the code
    action collection, changes no code action object but the one it was
    given, and changes no field of that one but its edit. *)
Theorem resolve_touches_edit_only (env : Env) (codeAction : Ref)
    (parent : option CancellationToken) (s : State) (object : CodeAction) :
  heap s !! codeAction = Some object →
  diagnosticCollection (resolve env codeAction parent s).2
  = diagnosticCollection s
  ∧ codeActionCollection (resolve env codeAction parent s).2
    = codeActionCollection s
  ∧ (∀ other, other ≠ codeAction →
       heap (resolve env codeAction parent s).2 !! other = heap s !! other)
  ∧ ∃ resolved,
      heap (resolve env codeAction parent s).2 !! codeAction = Some resolved
      ∧ title resolved = title object
      ∧ kind resolved = kind object
      ∧ diagnostics resolved = diagnostics object
      ∧ actionCommand resolved = actionCommand object
      ∧ document resolved = document object.
Proof.
  intros Hobject.
  resolve_paths; simpl;
    (split; [done |]; split; [done |]; split;
      [by intros; rewrite ?lookup_insert_ne |]);
    rewrite ?lookup_insert_eq, ?(lookup_total_correct _ _ _ Hobject);
    by eexists.
Qed.

(** X5: An update that ends without the response of the worker (the
    configuration cannot be read, the trigger does not fit, the pool or the
    worker rejects, the operation is cancelled) leaves the entries of every
    document as they were, unless the document is excluded. *)
Theorem failed_update_keeps_results (env : Env) (document : TextDocument)
    (trigger : LintAction.t) (token : CancellationToken) (s : State)
    (e : JsError) :
  registryBegin env document None = Some token →
  (updateChain env document trigger token
     (updateStarted document token s)).1 = Rejected e →
  (∀ configuration,
     configurationGet env document (Some token) = Resolves configuration →
     ¬ excluded document configuration) →
  diagnosticCollection (update env document trigger s).2
  = diagnosticCollection s
  ∧ codeActionCollection (update env document trigger s).2
    = codeActionCollection s.
Proof.
  intros Htoken. rewrite (update_started _ _ _ _ _ Htoken).
  unfold updateStarted.
  update_chain_paths document trigger; intros Hrejected Hincluded;
    try discriminate Hrejected; try (by destruct (Hincluded _ eq_refl));
    done.
Qed.

(** X6: [update] never hands a code action request to a worker, and it hands
    over at most one diagnostic request: to the worker the pool granted for
    the key of the document, with the token of the operation, for the path
    and the text of the document, in the workspace folder of the document,
    with the executable and the standard of the configuration. *)
Theorem update_executes_on_leased_worker (env : Env)
    (document : TextDocument) (trigger : LintAction.t) (s : State) :
  codeActionExecutions (trace (update env document trigger s).2)
  = codeActionExecutions (trace s)
  ∧ (diagnosticExecutions (trace (update env document trigger s).2)
     = diagnosticExecutions (trace s)
     ∨ ∃ token configuration worker,
         registryBegin env document None = Some token
         ∧ configurationGet env document (Some token) = Resolves configuration
         ∧ poolWaitForAvailable env ("diagnostic:" +:+ fileName document)
             token = Resolves worker
         ∧ diagnosticExecutions (trace (update env document trigger s).2)
           = diagnosticExecutions (trace s)
             ++ [(worker,
                  {| workingDirectory :=
                       fsPath (workspaceFolderOrDefault env (uri document));
                     documentPath := fsPath (uri document);
                     documentContent := getText document;
                     options :=
                       {| optExecutable := executable configuration;
                          optStandard := standard configuration |};
                     data := tt : RequestData ReportType.Diagnostic |},
                  token)]).
Proof.
  update_paths document trigger; read; (split; [done |]);
    solve [by left | right; eexists _, _, _; eauto].
Qed.

(** X7: [resolve] never hands a diagnostic request to a worker, and it hands over
    at most one code action request: to the worker the pool granted for the
    key of the resolution, with the token of the operation, carrying the
    code, the start line and the start character of the diagnostic, and the
    executable and the standard of the configuration it reads a second
    time, without a token, once it has the worker. *)
Theorem resolve_executes_on_leased_worker (env : Env) (codeAction : Ref)
    (parent : option CancellationToken) (s : State) (object : CodeAction)
    (document : TextDocument) (diagnostic : Diagnostic) :
  heap s !! codeAction = Some object →
  resolvable object document diagnostic →
  diagnosticExecutions (trace (resolve env codeAction parent s).2)
  = diagnosticExecutions (trace s)
  ∧ (codeActionExecutions (trace (resolve env codeAction parent s).2)
     = codeActionExecutions (trace s)
     ∨ ∃ token configuration worker,
         registryBegin env document parent = Some token
         ∧ poolWaitForAvailable env (resolveKey document diagnostic) token
           = Resolves worker
         ∧ configurationGet env document None = Resolves configuration
         ∧ codeActionExecutions (trace (resolve env codeAction parent s).2)
           = codeActionExecutions (trace s)
             ++ [(worker,
                  {| workingDirectory :=
                       fsPath (workspaceFolderOrDefault env (uri document));
                     documentPath := fsPath (uri document);
                     documentContent := getText document;
                     options :=
                       {| optExecutable := executable configuration;
                          optStandard := standard configuration |};
                     data :=
                       {| dataCode := code diagnostic;
                          dataLine := line (start (range diagnostic));
                          dataCharacter :=
                            character (start (range diagnostic)) |}
                       : RequestData ReportType.CodeAction |},
                  token)]).
Proof.
  intros Hobject [Hdocument Hdiagnostics].
  unfold resolve, deref, createCancellationToken. run.
  rewrite (lookup_total_correct _ _ _ Hobject), Hdocument, Hdiagnostics. run.
  destruct (registryBegin _ _ _) as [token |] eqn:Htoken; run;
    [| read; split; [done | by left]].
  unfold resolveSettled, resolveChain, resolveRequest, configuration_get,
    waitForAvailable, getWorkspaceFolderOrDefault, execute, resolveResponse,
    resolveCatch, deleteCancellationToken, logger_error, deref.
  cases; read; (split; [done |]);
    solve [by left | right; eexists _, _, _; eauto].
Qed.

(** X8: On its way to the worker [resolve] reads the configuration with its
    token first, and a second time without a token only once the pool has
    granted a worker; on no path does it read it more than twice. *)
Theorem resolve_reads_configuration (env : Env) (codeAction : Ref)
    (parent : option CancellationToken) (s : State) (object : CodeAction)
    (document : TextDocument) (diagnostic : Diagnostic)
    (token : CancellationToken) :
  heap s !! codeAction = Some object →
  resolvable object document diagnostic →
  registryBegin env document parent = Some token →
  configurationTokens (trace (resolve env codeAction parent s).2)
  = configurationTokens (trace s)
    ++ match configurationGet env document (Some token) with
       | Rejects _ => [Some token]
       | Resolves _ =>
           match poolWaitForAvailable env (resolveKey document diagnostic)
                   token with
           | Rejects _ => [Some token]
           | Resolves _ => [Some token; None]
           end
       end.
Proof.
  intros Hobject Hresolvable Htoken.
  rewrite (resolve_started _ _ _ _ _ _ _ _ Hobject Hresolvable Htoken).
  unfold resolveStarted, resolveSettled, resolveChain, resolveRequest,
    configuration_get, waitForAvailable, getWorkspaceFolderOrDefault, execute,
    resolveResponse, resolveCatch, deleteCancellationToken, logger_error,
    deref.
  cases; read; by rewrite <- ?(assoc_L (++)).
Qed.

(** X9: Clearing a document erases whatever [update] has stored for it: after
    any update, however it went, [clearDocument] leaves both collections as
    if the document had been cleared without the update. *)
Theorem clearDocument_erases_update (env : Env) (document : TextDocument)
    (trigger : LintAction.t) (s : State) :
  (clearDocument document (update env document trigger s).2).1 = Fulfilled tt
  ∧ diagnosticCollection
      (clearDocument document (update env document trigger s).2).2
    = delete (collectionKey (uri document)) (diagnosticCollection s)
  ∧ codeActionCollection
      (clearDocument document (update env document trigger s).2).2
    = delete (collectionKey (uri document)) (codeActionCollection s).
Proof.
  unfold clearDocument.
  update_paths document trigger; simpl;
    by rewrite ?delete_insert_eq, ?delete_delete_eq.
Qed.

(** X10: The ignore-line quick fixes [update] builds carry no document, so
    [resolve] hands each of them back at once: it creates no token, reads no
    configuration, asks for no worker and changes nothing. *)
Theorem ignore_actions_resolve_at_once (env resolverEnv : Env)
    (document : TextDocument) (found : list Diagnostic) (action : CodeAction)
    (codeAction : Ref) (parent : option CancellationToken) (s : State) :
  action ∈ buildDiagnosticCodeActions env document found →
  heap s !! codeAction = Some action →
  resolve resolverEnv codeAction parent s = (Fulfilled codeAction, s).
Proof.
  intros Hbuilt Hobject.
  apply list_elem_of_fmap in Hbuilt as (diagnostic & -> & _).
  unfold resolve, deref. run.
  by rewrite (lookup_total_correct _ _ _ Hobject).
Qed.

(** X11: Whether the exclude loop prevents the update, and what it leaves behind,
    depends only on which patterns are configured: neither their order nor
    repetitions matter. *)
Theorem exclude_order_irrelevant (document : TextDocument)
    (patterns1 patterns2 : list RegExp) (s : State) :
  (∀ pattern, pattern ∈ patterns1 ↔ pattern ∈ patterns2) →
  checkExclude document patterns1 s = checkExclude document patterns2 s.
Proof.
  intros Hsame.
  destruct (decide (Exists
    (λ pattern, test pattern (fsPath (uri document)) = true) patterns1))
    as [Hhit | Hnone].
  - rewrite !checkExclude_excluded; [done | | done].
    apply Exists_exists in Hhit as (pattern & Hin & Htest).
    apply Exists_exists. exists pattern. by rewrite <- Hsame.
  - rewrite !checkExclude_included; [done | | done].
    intros (pattern & Hin & Htest)%Exists_exists. apply Hnone.
    apply Exists_exists. exists pattern. by rewrite Hsame.
Qed.

(** X12: The keys of the two dispatchers are apart: no key of an update is the
    key of a resolution, and the updates of documents with different file
    names have different keys. *)
Theorem pool_key_domains :
  (∀ (document target : TextDocument) (diagnostic : Diagnostic),
     diagnosticKey document ≠ resolveKey target diagnostic)
  ∧ (∀ document1 document2 : TextDocument,
     diagnosticKey document1 = diagnosticKey document2 →
     fileName document1 = fileName document2).
Proof.
  split.
  - intros document target diagnostic.
    unfold diagnosticKey, resolveKey, join, String.app. simpl. discriminate.
  - intros document1 document2.
    unfold diagnosticKey. apply (inj (String.app "diagnostic:")).
Qed.

Lemma pretty_N_char_digit (x : N) : isDigit (pretty_N_char x).
Proof.
  unfold pretty_N_char, isDigit. repeat case_match; set_solver.
Qed.

Lemma pretty_N_go_digits (x : N) (str : string) :
  digits str → digits (pretty_N_go x str).
Proof.
  revert str. induction (N.lt_wf_0 x) as [x _ IH]. intros str Hstr.
  destruct (decide (x = 0)%N) as [-> | Hpositive].
  - by rewrite pretty_N_go_0.
  - rewrite pretty_N_go_step by lia. apply IH.
    + apply N.div_lt; lia.
    + split; [apply pretty_N_char_digit | done].
Qed.

(** A number is printed with decimal digits only. *)
Lemma Number_toString_digits (n : N) : digits (Number_toString n).
Proof.
  unfold Number_toString, pretty, pretty_N. case_decide.
  - split; [unfold isDigit; set_solver | done].
  - by apply pretty_N_go_digits.
Qed.

Lemma colon_not_digit : ¬ isDigit ":".
Proof.
  unfold isDigit. apply (bool_decide_eq_false_1 _). reflexivity.
Qed.

(** Two strings of digits, each followed by a colon, that start equal
    strings are equal, and so is what follows them. *)
Lemma digits_colon_inj (u1 u2 v1 v2 : string) :
  digits u1 → digits u2 →
  u1 +:+ ":" +:+ v1 = u2 +:+ ":" +:+ v2 →
  u1 = u2 ∧ v1 = v2.
Proof.
  assert (∀ str, "" +:+ str = str) as Hnil by done.
  assert (∀ c u str, String c u +:+ str = String c (u +:+ str)) as Hcons
    by done.
  revert u2. induction u1 as [| c1 u1 IH]; intros [| c2 u2] Hu1 Hu2;
    rewrite ?Hcons, ?Hnil.
  - by intros [= ->].
  - intros [= <- _]. destruct Hu2 as [Hdigit _].
    by destruct colon_not_digit.
  - intros [= -> _]. destruct Hu1 as [Hdigit _].
    by destruct colon_not_digit.
  - intros [= -> Hrest]. destruct Hu1 as [_ Hu1], Hu2 as [_ Hu2].
    destruct (IH u2 Hu1 Hu2 Hrest) as [-> ->]. done.
Qed.

(** X13: Two diagnostics of one document with the same code have the same
    resolution key only if they start at the same line and the same
    character: resolutions at different places are never serialised
    against each other by mistake. *)
Theorem resolve_key_separates_positions (document : TextDocument)
    (diagnostic1 diagnostic2 : Diagnostic) :
  code diagnostic1 = code diagnostic2 →
  resolveKey document diagnostic1 = resolveKey document diagnostic2 →
  line (start (range diagnostic1)) = line (start (range diagnostic2))
  ∧ character (start (range diagnostic1))
    = character (start (range diagnostic2)).
Proof.
  intros Hcode. rewrite !resolveKey_spelled, Hcode. intros Hkey.
  do 5 apply (inj (String.app _)) in Hkey.
  apply digits_colon_inj in Hkey as [Hline Hcharacter];
    [| apply Number_toString_digits ..].
  split; by apply (inj Number_toString).
Qed.

(** ** The further properties on the sample inputs *)

Lemma dispatchers_settle_witness :
  ∃ name, errorClass Sample.typeError = OtherError name.
Proof.
  apply (proj1 (dispatchers_settle (Sample.failingEnv Sample.typeError))
    Sample.doc LintAction.Change Sample.s0 Sample.typeError eq_refl).
Defined.

Lemma linter_status_balanced_witness :
  linterStops
    (trace (update (Sample.env LintAction.Change) Sample.doc
              LintAction.Change Sample.s0).2) = [uri Sample.doc]
  ∧ linterStops
      (trace (update (Sample.failingEnv Sample.cancelled) Sample.doc
                LintAction.Change Sample.s0).2) = [].
Proof.
  split.
  - apply (linter_status_balanced (Sample.env LintAction.Change) Sample.doc
      LintAction.Change 1 Sample.s0 eq_refl).
  - apply (linter_status_balanced (Sample.failingEnv Sample.cancelled)
      Sample.doc LintAction.Change 1 Sample.s0 eq_refl).
Defined.

Lemma update_touches_own_document_only_witness :
  diagnosticCollection
    (update (Sample.env LintAction.Change) Sample.doc LintAction.Change
       Sample.s0).2 !! "/w/vendor/lib.php" = Some [Sample.diag].
Proof.
  apply (update_touches_own_document_only (Sample.env LintAction.Change)
    Sample.doc LintAction.Change Sample.s0 "/w/vendor/lib.php").
  discriminate.
Defined.

Lemma resolve_touches_edit_only_witness :
  codeActionCollection
    (resolve (Sample.env LintAction.Change) 0 None Sample.s0).2
  = codeActionCollection Sample.s0
  ∧ heap (resolve (Sample.env LintAction.Change) 0 None Sample.s0).2 !! 1
    = Some Sample.strayAction.
Proof.
  destruct (resolve_touches_edit_only (Sample.env LintAction.Change) 0 None
    Sample.s0 Sample.action eq_refl) as (_ & HcodeActions & Hothers & _).
  split; [exact HcodeActions |].
  apply (Hothers 1). discriminate.
Defined.

Lemma failed_update_keeps_results_witness :
  diagnosticCollection
    (update (Sample.failingEnv Sample.phpcsError) Sample.doc
       LintAction.Change Sample.s0).2
  = diagnosticCollection Sample.s0.
Proof.
  apply (failed_update_keeps_results (Sample.failingEnv Sample.phpcsError)
    Sample.doc LintAction.Change 1 Sample.s0 Sample.phpcsError eq_refl
    eq_refl).
  intros configuration [= <-] Hexcluded.
  inversion Hexcluded as [? ? Hhit | ? ? Hlater].
  - discriminate Hhit.
  - inversion Hlater.
Defined.

Lemma resolve_executes_on_leased_worker_witness :
  diagnosticExecutions
    (trace (resolve (Sample.env LintAction.Change) 0 None Sample.s0).2) = [].
Proof.
  apply (resolve_executes_on_leased_worker (Sample.env LintAction.Change) 0
    None Sample.s0 Sample.action Sample.doc Sample.diag eq_refl
    (conj eq_refl eq_refl)).
Defined.

Lemma resolve_reads_configuration_witness :
  configurationTokens
    (trace (resolve (Sample.env LintAction.Change) 0 None Sample.s0).2)
  = [Some 1; None].
Proof.
  apply (resolve_reads_configuration (Sample.env LintAction.Change) 0 None
    Sample.s0 Sample.action Sample.doc Sample.diag 1 eq_refl
    (conj eq_refl eq_refl) eq_refl).
Defined.

Lemma ignore_actions_resolve_at_once_witness :
  resolve (Sample.env LintAction.Change) 5 None Sample2.s1
  = (Fulfilled 5, Sample2.s1).
Proof.
  apply (ignore_actions_resolve_at_once (Sample.env LintAction.Change)
    (Sample.env LintAction.Change) Sample.doc [Sample.diag]
    Sample2.ignoreAction 5 None Sample2.s1).
  - apply list_elem_of_here.
  - reflexivity.
Defined.

Lemma exclude_order_irrelevant_witness :
  checkExclude Sample.doc [Sample.vendorPattern; Sample2.appPattern]
    Sample.s0
  = checkExclude Sample.doc
      [Sample2.appPattern; Sample.vendorPattern; Sample2.appPattern]
      Sample.s0.
Proof.
  apply (exclude_order_irrelevant Sample.doc
    [Sample.vendorPattern; Sample2.appPattern]
    [Sample2.appPattern; Sample.vendorPattern; Sample2.appPattern]
    Sample.s0).
  intros pattern. rewrite !elem_of_cons, !elem_of_nil. tauto.
Defined.

Lemma pool_key_domains_witness :
  fileName Sample.doc = fileName Sample.doc
  ∧ diagnosticKey Sample.doc ≠ resolveKey Sample.doc Sample.diag.
Proof.
  split.
  - apply (proj2 pool_key_domains Sample.doc Sample.doc eq_refl).
  - apply (proj1 pool_key_domains).
Defined.

Lemma resolve_key_separates_positions_witness :
  line (start (range Sample.diag)) = line (start (range Sample2.diagAgain))
  ∧ character (start (range Sample.diag))
    = character (start (range Sample2.diagAgain)).
Proof.
  apply (resolve_key_separates_positions Sample.doc Sample.diag
    Sample2.diagAgain eq_refl eq_refl).
Defined.

(** C5 fails as stated: an update triggered by [Change] while the user lints
    on [Change] asks for no worker when the document is excluded. *)
Lemma matching_trigger_excluded_no_request :
  registryBegin (Sample.env LintAction.Change) Sample.vendorDoc None = Some 1
  ∧ configurationGet (Sample.env LintAction.Change) Sample.vendorDoc (Some 1)
    = Resolves (Sample.config LintAction.Change)
  ∧ ¬ mismatched LintAction.Change
        (lintAction (Sample.config LintAction.Change))
  ∧ poolRequests
      (trace (update (Sample.env LintAction.Change) Sample.vendorDoc
                LintAction.Change Sample.s0).2) = [].
Proof.
  repeat split.
  intros [[_ Hconfigured] | [Htrigger _]]; discriminate.
Qed.

(** X14: an edit [resolve] assigns shows in the code action collection: when
    the collection holds the code action [resolve] is given, and the worker
    answers with a report, what the collection shows for the resource
    afterwards is what it showed before, with the edit of that code action
    set to the edits of the report. *)
Theorem resolved_edit_shows_in_collection (env : Env) (codeAction : Ref)
    (parent : option CancellationToken) (s : State) (object : CodeAction)
    (target : TextDocument) (diagnostic : Diagnostic)
    (token : CancellationToken) (configuration0 configuration : Configuration)
    (worker : Worker) (found : CodeActionReport) (key : string)
    (stored : list Ref) (shown : list CodeAction) (i : nat) :
  heap s !! codeAction = Some object →
  resolvable object target diagnostic →
  registryBegin env target parent = Some token →
  configurationGet env target (Some token) = Resolves configuration0 →
  poolWaitForAvailable env (resolveKey target diagnostic) token
  = Resolves worker →
  configurationGet env target None = Resolves configuration →
  workerExecute env ReportType.CodeAction worker
    (codeActionRequest target diagnostic configuration
       (workspaceFolderOrDefault env (uri target))) token
  = Resolves {| report := Some (found : Report ReportType.CodeAction) |} →
  codeActionCollection s !! key = Some stored →
  NoDup stored →
  stored !! i = Some codeAction →
  codeActionsOf s key = Some shown →
  ∃ resolved,
    codeActionsOf (resolve env codeAction parent s).2 key
    = Some (<[i := resolved]> shown)
    ∧ edit resolved
      = Some ((λ textEdit, (uri target, textEdit)) <$> edits found)
    ∧ title resolved = title object
    ∧ kind resolved = kind object
    ∧ diagnostics resolved = diagnostics object
    ∧ actionCommand resolved = actionCommand object
    ∧ document resolved = document object.
Proof.
  intros Hobject Hresolvable Htoken Hconfiguration0 Hworker Hconfiguration
    Hresponse Hstored Hdistinct Hat Hshown.
  destruct (resolveRequest_run env target diagnostic token configuration0
    configuration worker _ (resolveStarted target parent s)
    Hconfiguration0 Hworker Hconfiguration Hresponse) as [s1 Hrequest].
  pose proof (resolveRequest_heap env target diagnostic token
    (resolveStarted target parent s)) as Hheap.
  pose proof (resolveRequest_collection env target diagnostic token
    (resolveStarted target parent s)) as Hcollection.
  rewrite Hrequest in Hheap, Hcollection. simpl in Hheap, Hcollection.
  rewrite (resolve_fulfilled_run env _ _ _ _ _ _ _ _ _ Hobject Hresolvable
    Htoken Hrequest).
  unfold resolveResponse, deleteCancellationToken, deref. run.
  rewrite Hheap, (lookup_total_correct _ _ _ Hobject).
  exists (set_edit
    (WorkspaceEdit_set (uri target) (edits found) WorkspaceEdit_new) object).
  split; [| by repeat split].
  unfold codeActionsOf in *. simpl. rewrite Hcollection, Hstored in *.
  simpl in *. apply mapM_Some in Hshown. apply mapM_Some.
  apply Forall2_same_length_lookup. split.
  { rewrite length_insert. by eapply Forall2_length. }
  intros j ref action Href Haction.
  destruct (decide (j = i)) as [-> | Hother].
  - rewrite Hat in Href. injection Href as <-.
    rewrite list_lookup_insert_eq in Haction
      by (apply (Forall2_length _ _ _) in Hshown;
          rewrite <- Hshown; by eapply lookup_lt_Some).
    injection Haction as <-. apply lookup_insert_eq.
  - rewrite list_lookup_insert_ne in Haction by done.
    rewrite lookup_insert_ne.
    + rewrite Hheap.
      exact (Forall2_lookup_lr _ _ _ _ _ _ Hshown Href Haction).
    + intros <-. apply Hother. by eapply NoDup_lookup.
Qed.

Lemma resolved_edit_shows_in_collection_witness :
  codeActionsOf Sample2.updated "/w/app/User.php"
  = Some [Sample2.fixAction; Sample2.ignoreAgain]
  ∧ ∃ resolved,
      codeActionsOf (resolve Sample2.env 2 None Sample2.updated).2
        "/w/app/User.php"
      = Some [resolved; Sample2.ignoreAgain]
      ∧ edit resolved
        = Some [(uri Sample.doc, Sample2.wrapEdit);
                (uri Sample.doc, Sample2.semicolonEdit)].
Proof.
  split; [reflexivity |].
  destruct (resolved_edit_shows_in_collection Sample2.env 2 None
    Sample2.updated Sample2.fixAction Sample.doc Sample2.diagAgain 1
    (Sample.config LintAction.Change) (Sample.config LintAction.Change) 7
    (Sample2.reportFor ReportType.CodeAction) "/w/app/User.php" [2; 3]
    [Sample2.fixAction; Sample2.ignoreAgain] 0)
    as (resolved & Hshown & Hedit & _); try reflexivity.
  - split; reflexivity.
  - apply NoDup_cons. split; [| apply NoDup_singleton].
    intros Hin. apply list_elem_of_singleton in Hin. discriminate Hin.
  - exists resolved. split; [exact Hshown | exact Hedit].
Defined.
